(** * winget_updater.py: the orchestration of the automatic winget update

    A shallow embedding of [src/winget_updater.py].  The program is a PyQt5
    application: one slot ([q1R2s3]) is queued at start-up, slots queue
    further slots through timers, a worker thread ([w7X8y9]) reports back
    through queued signals, and a [QProcess] reports through its own
    signals.  The embedding keeps that shape: every method is a computation
    in a small state-and-exception monad over the window's state, and
    [exec_] is the event loop that runs the queued slots one after the
    other. *)

From Stdlib Require Import List ZArith NArith Bool Lia String Ascii DecimalString.
Import ListNotations.
Local Open Scope Z_scope.

(** ** Python strings *)

(** A Python [str] is a sequence of Unicode code points. *)
Abbreviation pystr := (list N).

(** An ASCII literal of the source, as a [str]. *)
Fixpoint lit (s : string) : pystr :=
  match s with
  | EmptyString => []
  | String a t => N_of_ascii a :: lit t
  end.

(** The escape [\n] of the source's literals. *)
Definition nl : pystr := [10%N].

Fixpoint pystr_eqb (a b : pystr) : bool :=
  match a, b with
  | [], [] => true
  | x :: a', y :: b' => N.eqb x y && pystr_eqb a' b'
  | _, _ => false
  end.

(** [str(n)] and [f"{n}"] for an [int]. *)
Definition str_of_int (z : Z) : pystr := lit (NilZero.string_of_int (Z.to_int z)).

(** [" ".join(parts)] *)
Fixpoint join_space (parts : list pystr) : pystr :=
  match parts with
  | [] => []
  | [p] => p
  | p :: rest => p ++ lit " " ++ join_space rest
  end.

(** The characters [str.strip()] removes: those for which [str.isspace]
    holds (CPython's [_PyUnicode_IsWhitespace]). *)
Definition isspace (c : N) : bool :=
  ((9 <=? c) && (c <=? 13)
   || (28 <=? c) && (c <=? 32)
   || (c =? 133) || (c =? 160) || (c =? 5760)
   || (8192 <=? c) && (c <=? 8202)
   || (c =? 8232) || (c =? 8233) || (c =? 8239) || (c =? 8287)
   || (c =? 12288))%N.

Fixpoint lstrip (s : pystr) : pystr :=
  match s with
  | [] => []
  | c :: t => if isspace c then lstrip t else s
  end.

Definition rstrip (s : pystr) : pystr := rev (lstrip (rev s)).

Definition strip (s : pystr) : pystr := rstrip (lstrip s).

(** [a or b] on strings: [a] unless it is empty. *)
Definition str_or (a b : pystr) : pystr :=
  match a with
  | [] => b
  | _ :: _ => a
  end.

(** [os.path.join(dir, name)] on Windows for a relative [name] without a
    drive: the separator is added unless [dir] is empty or already ends with
    one. *)
Definition os_path_join (dir name : pystr) : pystr :=
  match rev dir with
  | [] => name
  | c :: _ => if ((c =? 92) || (c =? 47))%N then dir ++ name
              else dir ++ lit "\" ++ name
  end.

(** ** The constants of the module *)

Definition WINGET_MSIX_URL : pystr :=
  lit "https://sourceforge.net/projects/windows-package-manager.mirror"
  ++ lit "/files/v1.11.430/Microsoft.DesktopAppInstaller_8wekyb3d8bbwe.msixbundle/download".

Definition WINGET_UPDATE_ARGS : list pystr :=
  [ lit "upgrade";
    lit "--all";
    lit "--accept-source-agreements";
    lit "--accept-package-agreements";
    lit "--disable-interactivity" ].

(** ** What the program observes of its host *)

(** [QProcess.ExitStatus] *)
Inductive ExitStatus := NormalExit | CrashExit.

(** The result of [subprocess.run(..., capture_output=True, text=True)]. *)
Record CompletedProcess := {
  returncode : Z;
  stdout : pystr;
  stderr : pystr
}.

Inductive RunResult :=
| SpawnRaised (exc : pystr)            (* e.g. [FileNotFoundError] *)
| Completed (proc : CompletedProcess).

(** Everything a run reads from outside.  The download follows CPython's
    [urllib.request.urlretrieve]: opening the URL may raise; otherwise the
    body arrives as a sequence of non-empty blocks, possibly cut short by an
    exception. *)
Record Env := {
  sys_argv : list pystr;
  sys_executable : pystr;
  platform_system : pystr;
  platform_release : pystr;
  IsUserAnAdmin : option Z;        (* [None]: the query raises *)
  ShellExecuteW : Z;               (* the returned HINSTANCE; success is > 32 *)
  which_winget : option pystr;     (* [shutil.which("winget")] *)
  gettempdir : pystr;
  dl_open_error : option pystr;    (* [str] of the exception raised on opening *)
  dl_size : Z;                     (* Content-Length, or -1 when not sent *)
  dl_blocks : list Z;              (* the lengths of the blocks read *)
  dl_read_error : option pystr;    (* [str] of the exception raised while reading *)
  installer : RunResult;
  wait_started : bool;             (* [waitForStarted(3000)] *)
  proc_chunks : list pystr;        (* the decoded output, as it becomes readable *)
  proc_exit_code : Z;
  proc_exit_status : ExitStatus
}.

(** ** Signals, queued slots and observable effects *)

(** [WorkerSignals]: [log(str)], [progress(int)], [finished(bool, str)]. *)
Inductive WorkerSignal :=
| SigLog (msg : pystr)
| SigProgress (percent : Z)
| SigFinished (success : bool) (message : pystr).

(** A slot call waiting in the event loop. *)
Inductive Task :=
| TQ1R2s3                                    (* [QTimer.singleShot(0, self.q1R2s3)] *)
| TC3D4e5                                    (* [QTimer.singleShot(_, self.c3D4e5)] *)
| TSignal (s : WorkerSignal)                       (* a queued worker signal *)
| TReadyRead (text : pystr)                  (* [readyReadStandardOutput] *)
| TFinished (exit_code : Z) (exit_status : ExitStatus).

Inductive Event :=
| EvIsUserAnAdmin
| EvShellExecuteW (verb file params : pystr) (show : Z)
| EvWhich (name : pystr)
| EvSingleShot (msec : Z) (slot : Task)
| EvThreadStart
| EvUrlretrieve (url dest : pystr)
| EvSubprocessRun (args : list pystr)
| EvEmit (s : WorkerSignal)
| EvProcessStart (program : pystr) (args : list pystr)
| EvWaitForStarted (msec : Z)
| EvCritical (title text : pystr)
| EvWarning (title text : pystr)
| EvQuit.

(** The main window: its widgets, the field [msix_path], and the bookkeeping
    of the embedding (the effects so far, the queued slots, the return code
    requested from the event loop). *)
Record WingetUpdater := {
  status_label : pystr;
  log_view : list pystr;
  progress_visible : bool;
  progress_maximum : Z;
  progress_values : list Z;        (* the arguments of [progress.setValue], in order *)
  msix_path : option pystr;
  trace : list Event;
  queue : list Task;
  quit_code : option Z
}.

(** ** The monad of the methods *)

Inductive exn :=
| PyException (msg : pystr)        (* an instance of [Exception], with its [str] *)
| SystemExit (code : Z).

Inductive Res (A : Type) :=
| Normal (a : A)
| Raised (e : exn).
Arguments Normal {A} a.
Arguments Raised {A} e.

Definition M (A : Type) : Type := WingetUpdater -> WingetUpdater * Res A.

Definition ret {A} (a : A) : M A := fun w => (w, Normal a).

Definition bind {A B} (c : M A) (k : A -> M B) : M B :=
  fun w =>
    match c w with
    | (w', Normal a) => k a w'
    | (w', Raised e) => (w', Raised e)
    end.

Definition raise {A} (e : exn) : M A := fun w => (w, Raised e).

Notation "x <- c ;; k" := (bind c (fun x => k))
  (at level 61, c at next level, right associativity).
Notation "c ;; k" := (bind c (fun _ => k))
  (at level 61, right associativity).

(** [try: body  except Exception as exc: handler(str(exc))] *)
Definition try_except_Exception {A} (body : M A) (handler : pystr -> M A) : M A :=
  fun w =>
    match body w with
    | (w', Raised (PyException msg)) => handler msg w'
    | r => r
    end.

Definition modify (f : WingetUpdater -> WingetUpdater) : M unit := fun w => (f w, Normal tt).
Definition gets {A} (f : WingetUpdater -> A) : M A := fun w => (w, Normal (f w)).

Definition set_status (s : pystr) (w : WingetUpdater) : WingetUpdater :=
  {| status_label := s; log_view := log_view w;
     progress_visible := progress_visible w; progress_maximum := progress_maximum w;
     progress_values := progress_values w; msix_path := msix_path w;
     trace := trace w; queue := queue w; quit_code := quit_code w |}.

Definition append_log (s : pystr) (w : WingetUpdater) : WingetUpdater :=
  {| status_label := status_label w; log_view := log_view w ++ [s];
     progress_visible := progress_visible w; progress_maximum := progress_maximum w;
     progress_values := progress_values w; msix_path := msix_path w;
     trace := trace w; queue := queue w; quit_code := quit_code w |}.

Definition set_visible (b : bool) (w : WingetUpdater) : WingetUpdater :=
  {| status_label := status_label w; log_view := log_view w;
     progress_visible := b; progress_maximum := progress_maximum w;
     progress_values := progress_values w; msix_path := msix_path w;
     trace := trace w; queue := queue w; quit_code := quit_code w |}.

Definition set_maximum (m : Z) (w : WingetUpdater) : WingetUpdater :=
  {| status_label := status_label w; log_view := log_view w;
     progress_visible := progress_visible w; progress_maximum := m;
     progress_values := progress_values w; msix_path := msix_path w;
     trace := trace w; queue := queue w; quit_code := quit_code w |}.

Definition set_value (v : Z) (w : WingetUpdater) : WingetUpdater :=
  {| status_label := status_label w; log_view := log_view w;
     progress_visible := progress_visible w; progress_maximum := progress_maximum w;
     progress_values := progress_values w ++ [v]; msix_path := msix_path w;
     trace := trace w; queue := queue w; quit_code := quit_code w |}.

Definition set_msix_path (p : pystr) (w : WingetUpdater) : WingetUpdater :=
  {| status_label := status_label w; log_view := log_view w;
     progress_visible := progress_visible w; progress_maximum := progress_maximum w;
     progress_values := progress_values w; msix_path := Some p;
     trace := trace w; queue := queue w; quit_code := quit_code w |}.

Definition record (e : Event) (w : WingetUpdater) : WingetUpdater :=
  {| status_label := status_label w; log_view := log_view w;
     progress_visible := progress_visible w; progress_maximum := progress_maximum w;
     progress_values := progress_values w; msix_path := msix_path w;
     trace := trace w ++ [e]; queue := queue w; quit_code := quit_code w |}.

Definition set_queue (q : list Task) (w : WingetUpdater) : WingetUpdater :=
  {| status_label := status_label w; log_view := log_view w;
     progress_visible := progress_visible w; progress_maximum := progress_maximum w;
     progress_values := progress_values w; msix_path := msix_path w;
     trace := trace w; queue := q; quit_code := quit_code w |}.

Definition enqueue (ts : list Task) (w : WingetUpdater) : WingetUpdater :=
  set_queue (queue w ++ ts) w.

Definition set_quit_code (c : Z) (w : WingetUpdater) : WingetUpdater :=
  {| status_label := status_label w; log_view := log_view w;
     progress_visible := progress_visible w; progress_maximum := progress_maximum w;
     progress_values := progress_values w; msix_path := msix_path w;
     trace := trace w; queue := queue w; quit_code := Some c |}.

(** An effect on the outside world, recorded in order. *)
Definition effect (e : Event) : M unit := modify (record e).

(** [signal.emit(...)] from the worker thread: the connection is queued, the
    slot runs later in the event loop. *)
Definition emit (s : WorkerSignal) : M unit :=
  effect (EvEmit s) ;; modify (enqueue [TSignal s]).

(** [QTimer.singleShot(msec, slot)] *)
Definition singleShot (msec : Z) (slot : Task) : M unit :=
  effect (EvSingleShot msec slot) ;; modify (enqueue [slot]).

(** [sys.exit(code)] *)
Definition sys_exit {A} (code : Z) : M A := raise (SystemExit code).

(** [QApplication.instance().quit()]: asks the event loop to return 0. *)
Definition app_quit : M unit := effect EvQuit ;; modify (set_quit_code 0).

(** ** The program *)

Section Program.

Variable env : Env.

(** *** Free functions *)

(** [ctypes.windll.shell32.IsUserAnAdmin()] inside [try ... except Exception:
    return False]; the caller only tests the truth of the result. *)
Definition a7B2cD3 : M bool :=
  effect EvIsUserAnAdmin ;;
  ret (match IsUserAnAdmin env with
       | Some r => negb (r =? 0)
       | None => false
       end).

(** [f'"{arg}"'] *)
Definition quoted (arg : pystr) : pystr := [34%N] ++ arg ++ [34%N].

(** The call returns its HINSTANCE, which the caller drops. *)
Definition shell_execute (verb file params : pystr) (show : Z) : M Z :=
  effect (EvShellExecuteW verb file params show) ;;
  ret (ShellExecuteW env).

Definition e9F1gH4 : M unit :=
  let params := join_space (map quoted (sys_argv env)) in
  _ <- shell_execute (lit "runas") (sys_executable env) params 1 ;;
  sys_exit 0.

Definition i5J6kL7 : M bool :=
  effect (EvWhich (lit "winget")) ;;
  ret (match which_winget env with
       | Some _ => true
       | None => false
       end).

(** The block size of [urlretrieve], [1024*8]. *)
Definition urlretrieve_bs : Z := 8192.

(** [str] of the [ContentTooShortError] of [urlretrieve]. *)
Definition content_too_short (read size : Z) : pystr :=
  lit "<urlopen error retrieval incomplete: got only " ++ str_of_int read
  ++ lit " out of " ++ str_of_int size ++ lit " bytes>".

(** The reading loop of [urlretrieve]: after each block, [blocknum += 1] and
    the hook is called; the result is the number of bytes read. *)
Fixpoint read_blocks (reporthook : Z -> Z -> Z -> M unit) (size : Z)
    (blocks : list Z) (blocknum read : Z) : M Z :=
  match blocks with
  | [] => ret read
  | b :: rest =>
      reporthook (blocknum + 1) urlretrieve_bs size ;;
      read_blocks reporthook size rest (blocknum + 1) (read + b)
  end.

(** [urllib.request.urlretrieve(url, dest, reporthook=...)] of the standard
    library, on the download of [env]. *)
Definition urlretrieve (url dest : pystr) (reporthook : Z -> Z -> Z -> M unit) : M unit :=
  effect (EvUrlretrieve url dest) ;;
  match dl_open_error env with
  | Some msg => raise (PyException msg)
  | None =>
      reporthook 0 urlretrieve_bs (dl_size env) ;;
      read <- read_blocks reporthook (dl_size env) (dl_blocks env) 0 0 ;;
      match dl_read_error env with
      | Some msg => raise (PyException msg)
      | None =>
          if (0 <=? dl_size env) && (read <? dl_size env)
          then raise (PyException (content_too_short read (dl_size env)))
          else ret tt
      end
  end.

Definition m8N9oP0 (url dest_path : pystr) (progress_cb : Z -> Z -> Z -> M unit) : M unit :=
  urlretrieve url dest_path progress_cb.

(** [subprocess.run(args, capture_output=True, text=True)] *)
Definition subprocess_run (args : list pystr) : M CompletedProcess :=
  effect (EvSubprocessRun args) ;;
  match installer env with
  | SpawnRaised msg => raise (PyException msg)
  | Completed proc => ret proc
  end.

(** *** The methods of [WingetUpdater] *)

Definition l2M3n4 (msg : pystr) : M unit := modify (append_log msg).

Definition o5P6q7 (msg : pystr) : M unit :=
  l2M3n4 (lit "<b>Fatal error:</b> " ++ msg) ;;
  effect (EvCritical (lit "Error") msg) ;;
  app_quit.

Definition r8S9t0 (percent : Z) : M unit :=
  visible <- gets progress_visible ;;
  (if negb visible then modify (set_visible true) else ret tt) ;;
  modify (set_maximum 100) ;;
  modify (set_value percent).

Definition u1V2w3 (enabled : bool) : M unit := modify (set_visible (negb enabled)).

Definition x4Y5z6 : M unit :=
  modify (set_visible false) ;;
  u1V2w3 true ;;
  modify (set_status (lit "Launch error")).

(** [int(block_num * block_size * 100 / total_size)]: the quotient truncated
    towards zero.  (The source divides in floating point; the truncated float
    is the integer quotient as long as the product stays below 2^53.) *)
Definition percent_of (block_num block_size total_size : Z) : Z :=
  Z.quot (block_num * block_size * 100) total_size.

(** The closure [reporthook] of [w7X8y9].  (The blocks of a body with a
    Content-Length add up to at most that length, so the percentage stays
    within the [int] of the signal.) *)
Definition reporthook (block_num block_size total_size : Z) : M unit :=
  if 0 <? total_size
  then emit (SigProgress (percent_of block_num block_size total_size))
  else ret tt.

(** [self.msix_path]; reading the attribute before it is set raises. *)
Definition self_msix_path : M pystr :=
  p <- gets msix_path ;;
  match p with
  | Some path => ret path
  | None => raise (PyException (lit "'WingetUpdater' object has no attribute 'msix_path'"))
  end.

Definition w7X8y9 : M unit :=
  try_except_Exception
    (emit (SigLog (lit "Downloading msix package" ++ [8230%N] ++ lit " ("
                   ++ WINGET_MSIX_URL ++ lit ")")) ;;
     path <- self_msix_path ;;
     m8N9oP0 WINGET_MSIX_URL path reporthook ;;
     path <- self_msix_path ;;
     emit (SigLog (lit "Saved to " ++ path)) ;;
     emit (SigLog (lit "Installing App Installer package (winget)" ++ [8230%N])) ;;
     path <- self_msix_path ;;
     let ps_cmd := lit "Add-AppxPackage -Path '" ++ path
                   ++ lit "' -ForceApplicationShutdown" in
     proc <- subprocess_run [ lit "powershell"; lit "-NoProfile";
                              lit "-ExecutionPolicy"; lit "Bypass";
                              lit "-Command"; ps_cmd ] ;;
     if negb (returncode proc =? 0)
     then
       let err := str_or (strip (stderr proc)) (strip (stdout proc)) in
       emit (SigFinished false (lit "Failed to install winget:" ++ nl ++ err))
     else
       emit (SigLog (lit "Installation completed successfully.")) ;;
       emit (SigFinished true (lit "winget installed")))
    (fun exc => emit (SigFinished false (lit "Error: " ++ exc))).

(** [threading.Thread(target=...).start()]: an exception that leaves the
    target ends the thread, not the caller.  The main thread has nothing
    queued while the worker runs, so the worker is run to its end here and
    its signals wait in the queue in the order of their emission. *)
Definition thread_start (target : M unit) : M unit :=
  effect EvThreadStart ;;
  fun w => (fst (target w), Normal tt).

Definition t4U5v6 : M unit :=
  modify (set_maximum 0) ;;
  modify (set_visible true) ;;
  modify (set_msix_path
            (os_path_join (gettempdir env)
               (lit "Microsoft.DesktopAppInstaller_8wekyb3d8bbwe.msixbundle"))) ;;
  thread_start w7X8y9.

(** [self.winget_process.start(program, args)]: a process that starts will
    later signal its output and its end; one that does not start signals
    neither. *)
Definition process_start (program : pystr) (args : list pystr) : M unit :=
  effect (EvProcessStart program args) ;;
  if wait_started env
  then modify (enqueue (map TReadyRead (proc_chunks env)
                        ++ [TFinished (proc_exit_code env) (proc_exit_status env)]))
  else ret tt.

Definition waitForStarted (msec : Z) : M bool :=
  effect (EvWaitForStarted msec) ;;
  ret (wait_started env).

Definition c3D4e5 : M unit :=
  u1V2w3 false ;;
  modify (append_log (nl ++ lit "--- Starting update of all packages ---")) ;;
  modify (set_status (lit "Updating...")) ;;
  modify (set_maximum 0) ;;
  modify (set_visible true) ;;
  process_start (lit "winget") WINGET_UPDATE_ARGS ;;
  started <- waitForStarted 3000 ;;
  if negb started
  then l2M3n4 (lit "<b>Error:</b> Failed to start winget.") ;; x4Y5z6
  else ret tt.

(** [text] is the decoded chunk, [bytes(data).decode(errors="replace")]. *)
Definition f6G7h8 (text : pystr) : M unit := modify (append_log (rstrip text)).

Definition is_NormalExit (s : ExitStatus) : bool :=
  match s with
  | NormalExit => true
  | CrashExit => false
  end.

Definition i9J0k1 (exit_code : Z) (exit_status : ExitStatus) : M unit :=
  modify (set_visible false) ;;
  u1V2w3 true ;;
  if is_NormalExit exit_status && (exit_code =? 0)
  then
    modify (set_status (lit "Update completed successfully")) ;;
    modify (append_log (nl ++ lit "--- Update completed without errors ---"))
  else
    modify (set_status (lit "Update error (code=" ++ str_of_int exit_code ++ lit ")")) ;;
    modify (append_log (nl ++ lit "--- Finished with error (code="
                        ++ str_of_int exit_code ++ lit ") ---")) ;;
    effect (EvWarning (lit "Winget Error")
              (lit "The update finished with an error (code=" ++ str_of_int exit_code
               ++ lit ")." ++ nl ++ lit "See the log above for details.")).

Definition z0A1b2 (success : bool) (message : pystr) : M unit :=
  modify (set_visible false) ;;
  modify (set_maximum 0) ;;
  if success
  then
    l2M3n4 (lit "winget successfully installed, proceeding to update.") ;;
    singleShot 500 TC3D4e5
  else o5P6q7 (lit "winget installation failed." ++ nl ++ message).

Definition q1R2s3 : M unit :=
  if negb (pystr_eqb (platform_system env) (lit "Windows"))
  then o5P6q7 (lit "This program runs only on Windows.")
  else if negb (pystr_eqb (platform_release env) (lit "10")
                || pystr_eqb (platform_release env) (lit "11"))
  then o5P6q7 (lit "Only Windows 10 and Windows 11 are supported.")
  else
    admin <- a7B2cD3 ;;
    (if negb admin
     then l2M3n4 (lit "Requesting administrator privileges...") ;; e9F1gH4
     else ret tt) ;;
    l2M3n4 (lit "Checking for winget...") ;;
    present <- i5J6kL7 ;;
    if present
    then
      l2M3n4 (lit "winget already installed, proceeding to update.") ;;
      singleShot 200 TC3D4e5
    else
      l2M3n4 (lit "winget NOT found " ++ [8211%N]
              ++ lit " starting download and installation.") ;;
      t4U5v6.

(** *** The event loop *)

(** The slot behind a queued call, as connected in [__init__] and [w7X8y9]. *)
Definition dispatch (t : Task) : M unit :=
  match t with
  | TQ1R2s3 => q1R2s3
  | TC3D4e5 => c3D4e5
  | TSignal (SigLog msg) => l2M3n4 msg
  | TSignal (SigProgress percent) => r8S9t0 percent
  | TSignal (SigFinished success message) => z0A1b2 success message
  | TReadyRead text => f6G7h8 text
  | TFinished exit_code exit_status => i9J0k1 exit_code exit_status
  end.

(** How the event loop stops: [exec_] returns a code, a slot leaves the
    process through [sys.exit], or a slot lets an exception escape. *)
Inductive LoopEnd :=
| Returned (rc : Z)
| Exited (code : Z)
| Escaped (msg : pystr).

(** [app.exec_()]: the queued slots run in order until [quit()] was called;
    with nothing left to run the window stays open until it is closed, which
    quits the application with code 0 as well.  (The user is taken not to
    close the window while slots are still queued.)  [None] means that the
    fuel ran out before the loop ended. *)
Fixpoint exec_loop (fuel : nat) (w : WingetUpdater) : option (WingetUpdater * LoopEnd) :=
  match fuel with
  | O => None
  | S n =>
      match quit_code w with
      | Some rc => Some (w, Returned rc)
      | None =>
          match queue w with
          | [] => Some (w, Returned 0)
          | t :: q =>
              match dispatch t (set_queue q w) with
              | (w', Normal _) => exec_loop n w'
              | (w', Raised (SystemExit code)) => Some (w', Exited code)
              | (w', Raised (PyException msg)) => Some (w', Escaped msg)
              end
          end
      end
  end.

(** [WingetUpdater.__init__] *)
Definition init_window : WingetUpdater :=
  {| status_label := lit "Initializing" ++ [8230%N];
     log_view := [];
     progress_visible := false;
     progress_maximum := 0;
     progress_values := [];
     msix_path := None;
     trace := [EvSingleShot 0 TQ1R2s3];
     queue := [TQ1R2s3];
     quit_code := None |}.

(** As many turns of the loop as a run can take: one per slot call. *)
Definition run_fuel : nat :=
  (12 + List.length (dl_blocks env) + List.length (proc_chunks env))%nat.

Definition run : option (WingetUpdater * LoopEnd) := exec_loop run_fuel init_window.

(** How the host process ends. *)
Inductive HostExit :=
| ExitCode (code : Z)
| Crash (msg : pystr).

(** [sys.exit(app.exec_())] *)
Definition A7b8C9 : option HostExit :=
  match run with
  | Some (_, Returned rc) => Some (ExitCode rc)
  | Some (_, Exited code) => Some (ExitCode code)
  | Some (_, Escaped msg) => Some (Crash msg)
  | None => None
  end.

End Program.

(** ** The states of the orchestration, read off a window *)

Inductive Terminal := Succeeded | Failed.

Definition is_failure_report (e : Event) : bool :=
  match e with
  | EvCritical _ _ | EvWarning _ _ => true
  | _ => false
  end.

(** A run has failed once a failure was reported (the critical box of
    [o5P6q7], the warning box of [i9J0k1], the status of [x4Y5z6]); it has
    succeeded once [i9J0k1] reported success. *)
Definition terminal_state (w : WingetUpdater) : option Terminal :=
  if existsb is_failure_report (trace w) || pystr_eqb (status_label w) (lit "Launch error")
  then Some Failed
  else if pystr_eqb (status_label w) (lit "Update completed successfully")
  then Some Succeeded
  else None.

(** ** A first host

    Windows 10, elevated, winget absent: the package of 10000 bytes arrives
    in two blocks, the installer and the update succeed. *)

Definition sample_env : Env :=
  {| sys_argv := [lit "winget_updater.py"];
     sys_executable := lit "C:\Python\python.exe";
     platform_system := lit "Windows";
     platform_release := lit "10";
     IsUserAnAdmin := Some 1;
     ShellExecuteW := 42;
     which_winget := None;
     gettempdir := lit "C:\Temp";
     dl_open_error := None;
     dl_size := 10000;
     dl_blocks := [8192; 1808];
     dl_read_error := None;
     installer := Completed {| returncode := 0; stdout := []; stderr := [] |};
     wait_started := true;
     proc_chunks := [lit "No updates found." ++ nl];
     proc_exit_code := 0;
     proc_exit_status := NormalExit |}.


(** ** The worker in closed form

    What [w7X8y9] does to the window, written as the list of the effects it
    adds; [worker_run] below proves that the method does exactly this. *)

(** The signals among a list of effects. *)
Fixpoint emitted (evs : list Event) : list WorkerSignal :=
  match evs with
  | [] => []
  | EvEmit s :: rest => s :: emitted rest
  | _ :: rest => emitted rest
  end.

(** The window after the effects [evs] of a thread that touches no widget:
    they are recorded, and each emitted signal waits in the queue. *)
Definition perform (evs : list Event) (w : WingetUpdater) : WingetUpdater :=
  {| status_label := status_label w; log_view := log_view w;
     progress_visible := progress_visible w; progress_maximum := progress_maximum w;
     progress_values := progress_values w; msix_path := msix_path w;
     trace := trace w ++ evs;
     queue := queue w ++ map TSignal (emitted evs);
     quit_code := quit_code w |}.

(** The block numbers the reading loop passes to the hook. *)
Fixpoint hook_calls (blocks : list Z) (blocknum : Z) : list Z :=
  match blocks with
  | [] => []
  | _ :: rest => (blocknum + 1) :: hook_calls rest (blocknum + 1)
  end.

Definition is_finished (s : WorkerSignal) : bool :=
  match s with
  | SigFinished _ _ => true
  | _ => false
  end.

Section Closed.

Variable env : Env.

(** The [progress] signals of one download, in order. *)
Definition progress_signals : list WorkerSignal :=
  if 0 <? dl_size env
  then map (fun k => SigProgress (percent_of k urlretrieve_bs (dl_size env)))
           (0 :: hook_calls (dl_blocks env) 0)
  else [].

(** The percentages of one download, in order. *)
Definition progress_percents : list Z :=
  if 0 <? dl_size env
  then map (fun k => percent_of k urlretrieve_bs (dl_size env))
           (0 :: hook_calls (dl_blocks env) 0)
  else [].

Definition total_read : Z := fold_left Z.add (dl_blocks env) 0.

(** [str] of the exception that ends the download, if one does. *)
Definition download_error : option pystr :=
  match dl_open_error env with
  | Some msg => Some msg
  | None =>
      match dl_read_error env with
      | Some msg => Some msg
      | None =>
          if (0 <=? dl_size env) && (total_read <? dl_size env)
          then Some (content_too_short total_read (dl_size env))
          else None
      end
  end.

Definition download_events (path : pystr) : list Event :=
  EvUrlretrieve WINGET_MSIX_URL path
  :: match dl_open_error env with
     | Some _ => []
     | None => map EvEmit progress_signals
     end.

Definition installer_args (path : pystr) : list pystr :=
  [ lit "powershell"; lit "-NoProfile"; lit "-ExecutionPolicy"; lit "Bypass";
    lit "-Command";
    lit "Add-AppxPackage -Path '" ++ path ++ lit "' -ForceApplicationShutdown" ].

(** The text a failed installer is reported with. *)
Definition diagnostic (proc : CompletedProcess) : pystr :=
  str_or (strip (stderr proc)) (strip (stdout proc)).

Definition install_events : list Event :=
  match installer env with
  | SpawnRaised msg => [EvEmit (SigFinished false (lit "Error: " ++ msg))]
  | Completed proc =>
      if negb (returncode proc =? 0)
      then [EvEmit (SigFinished false
                      (lit "Failed to install winget:" ++ nl ++ diagnostic proc))]
      else [EvEmit (SigLog (lit "Installation completed successfully."));
            EvEmit (SigFinished true (lit "winget installed"))]
  end.

Definition worker_events (field : option pystr) : list Event :=
  EvEmit (SigLog (lit "Downloading msix package" ++ [8230%N] ++ lit " ("
                  ++ WINGET_MSIX_URL ++ lit ")"))
  :: match field with
     | None =>
         [EvEmit (SigFinished false
                    (lit "Error: "
                     ++ lit "'WingetUpdater' object has no attribute 'msix_path'"))]
     | Some path =>
         download_events path
         ++ match download_error with
            | Some msg => [EvEmit (SigFinished false (lit "Error: " ++ msg))]
            | None =>
                [EvEmit (SigLog (lit "Saved to " ++ path));
                 EvEmit (SigLog (lit "Installing App Installer package (winget)"
                                 ++ [8230%N]));
                 EvSubprocessRun (installer_args path)]
                ++ install_events
            end
     end.

(** Whether the download and the installation both went through. *)
Definition bootstrap_ok : bool :=
  match download_error, installer env with
  | None, Completed proc => returncode proc =? 0
  | _, _ => false
  end.

End Closed.

(** ** A run in closed form

    The effects, the final status and the end of a whole run, by cases on
    what the host answers; [run_closed_form] proves that [run] computes
    exactly these. *)

Section ClosedRun.

Variable env : Env.

(** The arguments of the [finished] signal of the worker. *)
Definition worker_verdict (field : option pystr) : bool * pystr :=
  match field with
  | None =>
      (false, lit "Error: " ++ lit "'WingetUpdater' object has no attribute 'msix_path'")
  | Some _ =>
      match download_error env with
      | Some msg => (false, lit "Error: " ++ msg)
      | None =>
          match installer env with
          | SpawnRaised msg => (false, lit "Error: " ++ msg)
          | Completed proc =>
              if negb (returncode proc =? 0)
              then (false, lit "Failed to install winget:" ++ nl ++ diagnostic proc)
              else (true, lit "winget installed")
          end
      end
  end.

Definition platform_supported : bool :=
  pystr_eqb (platform_system env) (lit "Windows")
  && (pystr_eqb (platform_release env) (lit "10")
      || pystr_eqb (platform_release env) (lit "11")).

Definition elevated : bool :=
  match IsUserAnAdmin env with
  | Some r => negb (r =? 0)
  | None => false
  end.

Definition winget_present : bool :=
  match which_winget env with
  | Some _ => true
  | None => false
  end.

Definition temp_path : pystr :=
  os_path_join (gettempdir env)
    (lit "Microsoft.DesktopAppInstaller_8wekyb3d8bbwe.msixbundle").

Definition fatal_events (msg : pystr) : list Event :=
  [EvCritical (lit "Error") msg; EvQuit].

Definition upgrade_ok : bool :=
  is_NormalExit (proc_exit_status env) && (proc_exit_code env =? 0).

Definition warning_text (exit_code : Z) : pystr :=
  lit "The update finished with an error (code=" ++ str_of_int exit_code
  ++ lit ")." ++ nl ++ lit "See the log above for details.".

Definition upgrade_events : list Event :=
  [EvProcessStart (lit "winget") WINGET_UPDATE_ARGS; EvWaitForStarted 3000]
  ++ (if wait_started env && negb upgrade_ok
      then [EvWarning (lit "Winget Error") (warning_text (proc_exit_code env))]
      else []).

Definition upgrade_status : pystr :=
  if wait_started env
  then if upgrade_ok
       then lit "Update completed successfully"
       else lit "Update error (code=" ++ str_of_int (proc_exit_code env) ++ lit ")"
  else lit "Launch error".

Definition upgrade_log : list pystr :=
  (nl ++ lit "--- Starting update of all packages ---")
  :: (if wait_started env
      then map rstrip (proc_chunks env)
           ++ [if upgrade_ok
               then nl ++ lit "--- Update completed without errors ---"
               else nl ++ lit "--- Finished with error (code="
                    ++ str_of_int (proc_exit_code env) ++ lit ") ---"]
      else [lit "<b>Error:</b> Failed to start winget."]).

Definition bootstrap_events : list Event :=
  EvThreadStart
  :: worker_events env (Some temp_path)
  ++ (if bootstrap_ok env
      then EvSingleShot 500 TC3D4e5 :: upgrade_events
      else fatal_events (lit "winget installation failed." ++ nl
                         ++ snd (worker_verdict (Some temp_path)))).

Definition run_trace : list Event :=
  EvSingleShot 0 TQ1R2s3
  :: (if negb (pystr_eqb (platform_system env) (lit "Windows"))
      then fatal_events (lit "This program runs only on Windows.")
      else if negb (pystr_eqb (platform_release env) (lit "10")
                    || pystr_eqb (platform_release env) (lit "11"))
      then fatal_events (lit "Only Windows 10 and Windows 11 are supported.")
      else
        EvIsUserAnAdmin
        :: (if negb elevated
            then [EvShellExecuteW (lit "runas") (sys_executable env)
                    (join_space (map quoted (sys_argv env))) 1]
            else
              EvWhich (lit "winget")
              :: (if winget_present
                  then EvSingleShot 200 TC3D4e5 :: upgrade_events
                  else bootstrap_events))).

(** Whether the run gets as far as [c3D4e5]. *)
Definition upgrade_launched : bool :=
  platform_supported && elevated && (winget_present || bootstrap_ok env).

Definition run_status : pystr :=
  if upgrade_launched then upgrade_status else lit "Initializing" ++ [8230%N].

Definition run_end : LoopEnd :=
  if platform_supported && negb elevated then Exited 0 else Returned 0.

(** The slots that only write to the widgets. *)
Definition is_passive (t : Task) : bool :=
  match t with
  | TSignal (SigLog _) | TSignal (SigProgress _) | TReadyRead _ => true
  | _ => false
  end.

Definition passive_step (w : WingetUpdater) (t : Task) : WingetUpdater := fst (dispatch env t w).

Definition run_passive (ts : list Task) (w : WingetUpdater) : WingetUpdater :=
  fold_left passive_step ts w.

End ClosedRun.

(** ** Vocabulary of the properties *)

(** The effects a worker thread has. *)
Definition is_worker_event (e : Event) : bool :=
  match e with
  | EvEmit _ | EvUrlretrieve _ _ | EvSubprocessRun _ => true
  | _ => false
  end.

(** The operations on the host: the privilege check, the elevation relaunch,
    the tool probe, threads, the network and subprocesses. *)
Definition is_host_operation (e : Event) : bool :=
  match e with
  | EvIsUserAnAdmin | EvShellExecuteW _ _ _ _ | EvWhich _ | EvThreadStart
  | EvUrlretrieve _ _ | EvSubprocessRun _ | EvProcessStart _ _
  | EvWaitForStarted _ => true
  | _ => false
  end.

(** The download and the installer invocation. *)
Definition is_bootstrap_operation (e : Event) : bool :=
  match e with
  | EvThreadStart | EvUrlretrieve _ _ | EvSubprocessRun _ => true
  | _ => false
  end.

Definition is_process_start (e : Event) : bool :=
  match e with
  | EvProcessStart _ _ => true
  | _ => false
  end.

(** The percentages among a list of signals. *)
Fixpoint percents_of (sigs : list WorkerSignal) : list Z :=
  match sigs with
  | [] => []
  | SigProgress p :: rest => p :: percents_of rest
  | _ :: rest => percents_of rest
  end.

(** A sequence of progress values that never goes down. *)
Fixpoint nondecreasing (l : list Z) : Prop :=
  match l with
  | [] => True
  | a :: t =>
      match t with
      | [] => True
      | b :: _ => a <= b /\ nondecreasing t
      end
  end.

(** ** Hosts used as examples *)

(** A host that is not Windows. *)
Definition linux_env : Env :=
  {| sys_argv := [lit "winget_updater.py"];
     sys_executable := lit "/usr/bin/python3";
     platform_system := lit "Linux";
     platform_release := lit "6.8.0";
     IsUserAnAdmin := None;
     ShellExecuteW := 0;
     which_winget := None;
     gettempdir := lit "/tmp";
     dl_open_error := None;
     dl_size := -1;
     dl_blocks := [];
     dl_read_error := None;
     installer := SpawnRaised (lit "[Errno 2] No such file or directory: 'powershell'");
     wait_started := false;
     proc_chunks := [];
     proc_exit_code := 0;
     proc_exit_status := NormalExit |}.

(** Windows 10, not elevated, and the elevation request is refused
    ([ShellExecuteW] returns [SE_ERR_ACCESSDENIED], 5). *)
Definition denied_env : Env :=
  {| sys_argv := [lit "winget_updater.py"; lit "--now"];
     sys_executable := lit "C:\Python\python.exe";
     platform_system := lit "Windows";
     platform_release := lit "10";
     IsUserAnAdmin := Some 0;
     ShellExecuteW := 5;
     which_winget := None;
     gettempdir := lit "C:\Temp";
     dl_open_error := None;
     dl_size := -1;
     dl_blocks := [];
     dl_read_error := None;
     installer := Completed {| returncode := 0; stdout := []; stderr := [] |};
     wait_started := true;
     proc_chunks := [];
     proc_exit_code := 0;
     proc_exit_status := NormalExit |}.

(** Windows 11, elevated, winget installed; the update ends with code 1. *)
Definition present_env : Env :=
  {| sys_argv := [lit "winget_updater.py"];
     sys_executable := lit "C:\Python\python.exe";
     platform_system := lit "Windows";
     platform_release := lit "11";
     IsUserAnAdmin := Some 1;
     ShellExecuteW := 42;
     which_winget := Some (lit "C:\Users\u\AppData\Local\Microsoft\WindowsApps\winget.EXE");
     gettempdir := lit "C:\Temp";
     dl_open_error := None;
     dl_size := -1;
     dl_blocks := [];
     dl_read_error := None;
     installer := Completed {| returncode := 0; stdout := []; stderr := [] |};
     wait_started := true;
     proc_chunks := [lit "Found 2 upgrades." ++ nl; lit "Installer failed" ++ nl];
     proc_exit_code := 1;
     proc_exit_status := NormalExit |}.

(** Windows 10, elevated, winget installed, but the process does not start. *)
Definition nostart_env : Env :=
  {| sys_argv := [lit "winget_updater.py"];
     sys_executable := lit "C:\Python\python.exe";
     platform_system := lit "Windows";
     platform_release := lit "10";
     IsUserAnAdmin := Some 1;
     ShellExecuteW := 42;
     which_winget := Some (lit "C:\stale\winget.exe");
     gettempdir := lit "C:\Temp";
     dl_open_error := None;
     dl_size := -1;
     dl_blocks := [];
     dl_read_error := None;
     installer := Completed {| returncode := 0; stdout := []; stderr := [] |};
     wait_started := false;
     proc_chunks := [];
     proc_exit_code := 0;
     proc_exit_status := NormalExit |}.



(** The same host when the server answers 404. *)
Definition http404_env : Env :=
  {| sys_argv := [lit "winget_updater.py"];
     sys_executable := lit "C:\Python\python.exe";
     platform_system := lit "Windows";
     platform_release := lit "10";
     IsUserAnAdmin := Some 1;
     ShellExecuteW := 42;
     which_winget := None;
     gettempdir := lit "C:\Temp";
     dl_open_error := Some (lit "HTTP Error 404: Not Found");
     dl_size := -1;
     dl_blocks := [];
     dl_read_error := None;
     installer := Completed {| returncode := 0; stdout := []; stderr := [] |};
     wait_started := true;
     proc_chunks := [];
     proc_exit_code := 0;
     proc_exit_status := NormalExit |}.

(** ** Vocabulary of the further properties *)

(** The slot queued by [__init__]. *)
Definition is_main (t : Task) : bool :=
  match t with
  | TQ1R2s3 => true
  | _ => false
  end.

(** The slots that end a stage of the run: the launch of the upgrade, the
    end of the worker, the end of the process. *)
Definition is_closer (t : Task) : bool :=
  match t with
  | TC3D4e5 | TSignal (SigFinished _ _) | TFinished _ _ => true
  | _ => false
  end.

(** A queue that is empty or ends with a closing slot. *)
Definition closed (q : list Task) : bool :=
  match rev q with
  | [] => true
  | t :: _ => is_closer t
  end.

Definition no_main (q : list Task) : bool := forallb (fun t => negb (is_main t)) q.

(** The invariant of the loop behind the hidden progress bar: either
    nothing ran yet, or the queue holds no [q1R2s3], is empty or ends with a
    closing slot, and the bar shows only while the loop goes on and slots are
    left. *)
Definition bar_invariant (w : WingetUpdater) : Prop :=
  (queue w = [TQ1R2s3] /\ progress_visible w = false)
  \/ (no_main (queue w) = true
      /\ closed (queue w) = true
      /\ (progress_visible w = true -> quit_code w = None /\ queue w <> [])).

(** The percentages among the queued slots. *)
Fixpoint pending_percents (q : list Task) : list Z :=
  match q with
  | [] => []
  | TSignal (SigProgress p) :: rest => p :: pending_percents rest
  | _ :: rest => pending_percents rest
  end.

(** The invariant of the loop behind the delivery of the percentages: what
    the bar got and what still waits in the queue is what was emitted; and
    percentages wait only in front of the worker's [finished] signal, while
    the loop goes on. *)
Definition progress_invariant (w : WingetUpdater) : Prop :=
  progress_values w ++ pending_percents (queue w) = percents_of (emitted (trace w))
  /\ (queue w = [TQ1R2s3]
      \/ (no_main (queue w) = true /\ pending_percents (queue w) = [])
      \/ (quit_code w = None
          /\ exists sigs b m,
               queue w = map TSignal sigs ++ [TSignal (SigFinished b m)]
               /\ forallb is_passive (map TSignal sigs) = true)).

(** The operations that need the elevated process. *)
Definition is_gated_operation (e : Event) : bool :=
  match e with
  | EvWhich _ | EvThreadStart | EvUrlretrieve _ _ | EvSubprocessRun _
  | EvProcessStart _ _ | EvWaitForStarted _ => true
  | _ => false
  end.

(** The start of the upgrade process and the wait for it. *)
Definition is_upgrade_operation (e : Event) : bool :=
  match e with
  | EvProcessStart _ _ | EvWaitForStarted _ => true
  | _ => false
  end.

Definition is_quit (e : Event) : bool :=
  match e with
  | EvQuit => true
  | _ => false
  end.

Definition is_critical (e : Event) : bool :=
  match e with
  | EvCritical _ _ => true
  | _ => false
  end.

Section SlotEffects.

Variable env : Env.

(** What a slot other than [q1R2s3] adds to the queue. *)
Definition spawned (t : Task) : list Task :=
  match t with
  | TSignal (SigFinished true _) => [TC3D4e5]
  | TC3D4e5 =>
      if wait_started env
      then map TReadyRead (proc_chunks env)
           ++ [TFinished (proc_exit_code env) (proc_exit_status env)]
      else []
  | _ => []
  end.

(** Whether the progress bar shows after such a slot, given whether it
    showed before. *)
Definition visible_after (t : Task) (before : bool) : bool :=
  match t with
  | TSignal (SigLog _) | TReadyRead _ => before
  | TSignal (SigProgress _) => true
  | TC3D4e5 => wait_started env
  | _ => false
  end.

(** What [q1R2s3] adds to the queue. *)
Definition main_spawned : list Task :=
  if platform_supported env && elevated env
  then if winget_present env
       then [TC3D4e5]
       else map TSignal (emitted (worker_events env (Some (temp_path env))))
  else [].

(** Whether [q1R2s3] gets as far as the bootstrap. *)
Definition bootstrap_started : bool :=
  platform_supported env && elevated env && negb (winget_present env).

End SlotEffects.

(** ** Further hosts *)

(** Windows 11 where the privilege query itself raises. *)
Definition noquery_env : Env :=
  {| sys_argv := [lit "winget_updater.py"];
     sys_executable := lit "C:\Python\python.exe";
     platform_system := lit "Windows";
     platform_release := lit "11";
     IsUserAnAdmin := None;
     ShellExecuteW := 42;
     which_winget := None;
     gettempdir := lit "C:\Temp";
     dl_open_error := None;
     dl_size := -1;
     dl_blocks := [];
     dl_read_error := None;
     installer := Completed {| returncode := 0; stdout := []; stderr := [] |};
     wait_started := true;
     proc_chunks := [];
     proc_exit_code := 0;
     proc_exit_status := NormalExit |}.

(** Windows 10, elevated, winget absent: a package of one million bytes
    read in full blocks (122 of 8192 bytes and a last one of 576). *)
Definition megabyte_env : Env :=
  {| sys_argv := [lit "winget_updater.py"];
     sys_executable := lit "C:\Python\python.exe";
     platform_system := lit "Windows";
     platform_release := lit "10";
     IsUserAnAdmin := Some 1;
     ShellExecuteW := 42;
     which_winget := None;
     gettempdir := lit "C:\Temp";
     dl_open_error := None;
     dl_size := 1000000;
     dl_blocks := repeat 8192 122 ++ [576];
     dl_read_error := None;
     installer := Completed {| returncode := 0; stdout := []; stderr := [] |};
     wait_started := true;
     proc_chunks := [];
     proc_exit_code := 0;
     proc_exit_status := NormalExit |}.

(** The same host when the server sends no Content-Length. *)
Definition nolength_env : Env :=
  {| sys_argv := [lit "winget_updater.py"];
     sys_executable := lit "C:\Python\python.exe";
     platform_system := lit "Windows";
     platform_release := lit "10";
     IsUserAnAdmin := Some 1;
     ShellExecuteW := 42;
     which_winget := None;
     gettempdir := lit "C:\Temp";
     dl_open_error := None;
     dl_size := -1;
     dl_blocks := [8192; 8192; 100];
     dl_read_error := None;
     installer := Completed {| returncode := 0; stdout := []; stderr := [] |};
     wait_started := true;
     proc_chunks := [];
     proc_exit_code := 0;
     proc_exit_status := NormalExit |}.
(** * Properties *)

Example strip_example : strip (lit "  oops " ++ nl) = lit "oops".
Proof. reflexivity. Qed.

Example str_of_int_example : str_of_int (-5) = lit "-5" /\ str_of_int 0 = lit "0".
Proof. split; reflexivity. Qed.

Example sample_run :
  A7b8C9 sample_env = Some (ExitCode 0)
  /\ option_map (fun r => terminal_state (fst r)) (run sample_env) = Some (Some Succeeded).
Proof. split; vm_compute; reflexivity. Qed.

(** ** Facts about strings *)




Lemma rev_nil_iff {A} (l : list A) : rev l = [] <-> l = [].
Proof.
  split; intros H.
  - rewrite <- (rev_involutive l), H. reflexivity.
  - subst. reflexivity.
Qed.



Lemma pystr_eqb_eq (a b : pystr) : pystr_eqb a b = true <-> a = b.
Proof.
  revert b. induction a as [|x a IH]; destruct b as [|y b]; simpl;
    try (split; [discriminate | discriminate]); [tauto|].
  rewrite andb_true_iff, N.eqb_eq, IH.
  split; [intros [-> ->]; reflexivity | intros H; injection H; auto].
Qed.

Lemma pystr_eqb_refl (a : pystr) : pystr_eqb a a = true.
Proof. apply pystr_eqb_eq. reflexivity. Qed.

(** ** The worker *)

Lemma perform_nil (w : WingetUpdater) : perform [] w = w.
Proof. destruct w; unfold perform; simpl. rewrite !app_nil_r. reflexivity. Qed.

Lemma emitted_app (a b : list Event) : emitted (a ++ b) = emitted a ++ emitted b.
Proof.
  induction a as [|e a IH]; simpl; [reflexivity|].
  destruct e; simpl; rewrite ?IH; reflexivity.
Qed.

Lemma perform_app (a b : list Event) (w : WingetUpdater) :
  perform (a ++ b) w = perform b (perform a w).
Proof.
  unfold perform; simpl.
  rewrite emitted_app, map_app, !app_assoc. reflexivity.
Qed.

Lemma emitted_map_emit (sigs : list WorkerSignal) : emitted (map EvEmit sigs) = sigs.
Proof. induction sigs as [|s l IH]; simpl; [|rewrite IH]; reflexivity. Qed.

Lemma effect_perform (e : Event) (w : WingetUpdater) :
  emitted [e] = [] -> effect e w = (perform [e] w, Normal tt).
Proof.
  intros H. destruct w. unfold effect, modify, record, perform.
  rewrite H. simpl. rewrite app_nil_r. reflexivity.
Qed.

Lemma emit_perform (s : WorkerSignal) (w : WingetUpdater) :
  emit s w = (perform [EvEmit s] w, Normal tt).
Proof. reflexivity. Qed.

Section WorkerFacts.

Variable env : Env.

(** The reading loop calls the hook once per block, and counts the bytes. *)
Lemma read_blocks_run (blocks : list Z) : forall (blocknum read : Z) (w : WingetUpdater),
  read_blocks (reporthook) (dl_size env) blocks blocknum read w
  = (perform (map EvEmit
                (if 0 <? dl_size env
                 then map (fun k => SigProgress (percent_of k urlretrieve_bs (dl_size env)))
                          (hook_calls blocks blocknum)
                 else [])) w,
     Normal (fold_left Z.add blocks read)).
Proof.
  induction blocks as [|b rest IH]; intros blocknum read w;
    cbn [read_blocks hook_calls fold_left].
  - destruct (0 <? dl_size env); cbn [map]; rewrite perform_nil; reflexivity.
  - unfold bind at 1. unfold reporthook at 1.
    destruct (0 <? dl_size env) eqn:E.
    + rewrite emit_perform. cbv beta iota. rewrite IH.
      rewrite <- perform_app. reflexivity.
    + unfold ret. cbv beta iota. rewrite IH. reflexivity.
Qed.

Lemma urlretrieve_run (url dest : pystr) (w : WingetUpdater) :
  url = WINGET_MSIX_URL ->
  urlretrieve env url dest reporthook w
  = (perform (download_events env dest) w,
     match download_error env with
     | Some msg => Raised (PyException msg)
     | None => Normal tt
     end).
Proof.
  intros ->. unfold urlretrieve, download_events, download_error, progress_signals.
  unfold bind at 1. rewrite effect_perform by reflexivity. cbv beta iota.
  destruct (dl_open_error env) as [msg|]; [reflexivity|].
  unfold bind at 1. unfold reporthook at 1.
  destruct (0 <? dl_size env) eqn:E.
  - rewrite emit_perform. cbv beta iota.
    unfold bind at 1. rewrite read_blocks_run, E. cbv beta iota.
    rewrite <- !perform_app. cbn [app map].
    unfold total_read.
    destruct (dl_read_error env); [reflexivity|].
    destruct ((0 <=? dl_size env) && (fold_left Z.add (dl_blocks env) 0 <? dl_size env));
      reflexivity.
  - unfold ret at 1. cbv beta iota.
    unfold bind at 1. rewrite read_blocks_run, E. cbv beta iota.
    cbn [map]. rewrite perform_nil. cbn [app]. unfold total_read.
    destruct (dl_read_error env); [reflexivity|].
    destruct ((0 <=? dl_size env) && (fold_left Z.add (dl_blocks env) 0 <? dl_size env));
      reflexivity.
Qed.

Lemma self_msix_path_run (w : WingetUpdater) :
  self_msix_path w
  = (w, match msix_path w with
        | Some path => Normal path
        | None => Raised (PyException
                            (lit "'WingetUpdater' object has no attribute 'msix_path'"))
        end).
Proof.
  unfold self_msix_path, bind, gets. destruct (msix_path w); reflexivity.
Qed.

Lemma subprocess_run_run (args : list pystr) (w : WingetUpdater) :
  subprocess_run env args w
  = (perform [EvSubprocessRun args] w,
     match installer env with
     | SpawnRaised msg => Raised (PyException msg)
     | Completed proc => Normal proc
     end).
Proof.
  unfold subprocess_run. unfold bind at 1.
  rewrite effect_perform by reflexivity. cbv beta iota.
  destruct (installer env); reflexivity.
Qed.

Ltac worker_step :=
  unfold bind at 1;
  first [ rewrite emit_perform
        | rewrite self_msix_path_run
        | rewrite subprocess_run_run
        | unfold m8N9oP0; rewrite urlretrieve_run by reflexivity ];
  cbv beta iota; rewrite <- ?perform_app; cbn [msix_path perform];
  try match goal with H : msix_path _ = _ |- _ => rewrite H end; cbv beta iota.

(** [w7X8y9] adds exactly [worker_events] and returns normally. *)
Lemma worker_run (w : WingetUpdater) :
  w7X8y9 env w = (perform (worker_events env (msix_path w)) w, Normal tt).
Proof.
  unfold w7X8y9, try_except_Exception, worker_events.
  destruct (msix_path w) as [path|] eqn:Hpath.
  all: worker_step; worker_step.
  - worker_step.
    destruct (download_error env) as [msg|].
    + rewrite emit_perform, <- perform_app. reflexivity.
    + do 5 worker_step. unfold install_events, diagnostic, installer_args.
      destruct (installer env) as [msg|proc].
      * rewrite emit_perform, <- perform_app, <- !app_assoc. reflexivity.
      * destruct (negb (returncode proc =? 0)).
        -- rewrite emit_perform, <- perform_app, <- !app_assoc. reflexivity.
        -- worker_step. rewrite emit_perform, <- perform_app, <- !app_assoc. reflexivity.
  - rewrite emit_perform, <- perform_app. reflexivity.
Qed.

End WorkerFacts.

(** ** The event loop *)

Section LoopFacts.

Variable env : Env.

Lemma exec_loop_mono (n : nat) : forall (w : WingetUpdater) (r : WingetUpdater * LoopEnd),
  exec_loop env n w = Some r ->
  forall m, (n <= m)%nat -> exec_loop env m w = Some r.
Proof.
  induction n as [|n IH]; intros w r H m Hm; [discriminate|].
  destruct m as [|m]; [lia|].
  simpl in H |- *.
  destruct (quit_code w); [exact H|].
  destruct (queue w) as [|t q]; [exact H|].
  destruct (dispatch env t (set_queue q w)) as [w' [[]|[msg|code]]]; try exact H.
  apply IH; [exact H | lia].
Qed.

Lemma set_queue_eta (w : WingetUpdater) : set_queue (queue w) w = w.
Proof. destruct w; reflexivity. Qed.

Lemma passive_dispatch (t : Task) (w : WingetUpdater) :
  is_passive t = true ->
  dispatch env t w = (passive_step env w t, Normal tt).
Proof.
  unfold passive_step.
  destruct t as [| |[msg|p|b m]|text|c s]; try discriminate; intros _; try reflexivity.
  simpl. unfold r8S9t0, bind, gets. destruct (negb (progress_visible w)); reflexivity.
Qed.

Lemma passive_step_frame (t : Task) (w : WingetUpdater) :
  is_passive t = true ->
  trace (passive_step env w t) = trace w
  /\ queue (passive_step env w t) = queue w
  /\ quit_code (passive_step env w t) = quit_code w
  /\ status_label (passive_step env w t) = status_label w
  /\ msix_path (passive_step env w t) = msix_path w.
Proof.
  unfold passive_step.
  destruct t as [| |[msg|p|b m]|text|c s]; try discriminate; intros _;
    try (repeat split; reflexivity).
  simpl. unfold r8S9t0, bind, gets.
  destruct (negb (progress_visible w)); repeat split; reflexivity.
Qed.

Lemma passive_step_set_queue (t : Task) (q : list Task) (w : WingetUpdater) :
  is_passive t = true ->
  passive_step env (set_queue q w) t = set_queue q (passive_step env w t).
Proof.
  unfold passive_step.
  destruct t as [| |[msg|p|b m]|text|c s]; try discriminate; intros _; try reflexivity.
  simpl. unfold r8S9t0, bind, gets. simpl.
  destruct (negb (progress_visible w)); reflexivity.
Qed.

Lemma run_passive_frame (ts : list Task) : forall (w : WingetUpdater),
  forallb is_passive ts = true ->
  trace (run_passive env ts w) = trace w
  /\ queue (run_passive env ts w) = queue w
  /\ quit_code (run_passive env ts w) = quit_code w
  /\ status_label (run_passive env ts w) = status_label w
  /\ msix_path (run_passive env ts w) = msix_path w.
Proof.
  induction ts as [|t ts IH]; intros w H; simpl in *.
  - repeat split; reflexivity.
  - apply andb_true_iff in H as [Ht Hts].
    destruct (passive_step_frame t w Ht) as (E1 & E2 & E3 & E4 & E5).
    destruct (IH (passive_step env w t) Hts) as (F1 & F2 & F3 & F4 & F5).
    unfold run_passive in *.
    rewrite F1, F2, F3, F4, F5. repeat split; assumption.
Qed.

(** The loop runs a whole prefix of passive slots, one turn each. *)
Lemma exec_passive (ts : list Task) : forall (w : WingetUpdater) (rest : list Task) (n : nat),
  forallb is_passive ts = true ->
  quit_code w = None ->
  exec_loop env (List.length ts + n) (set_queue (ts ++ rest) w)
  = exec_loop env n (set_queue rest (run_passive env ts w)).
Proof.
  induction ts as [|t ts IH]; intros w rest n H Hq; [reflexivity|].
  simpl in H. apply andb_true_iff in H as [Ht Hts].
  cbn [List.length Nat.add app exec_loop].
  change (quit_code (set_queue (t :: ts ++ rest) w)) with (quit_code w).
  rewrite Hq.
  change (queue (set_queue (t :: ts ++ rest) w)) with (t :: ts ++ rest).
  cbv beta iota.
  change (set_queue (ts ++ rest) (set_queue (t :: ts ++ rest) w))
    with (set_queue (ts ++ rest) w).
  rewrite (passive_dispatch t _ Ht), (passive_step_set_queue t _ w Ht).
  rewrite IH; [reflexivity | exact Hts |].
  destruct (passive_step_frame t w Ht) as (_ & _ & E & _). rewrite E. exact Hq.
Qed.

Lemma exec_loop_step (n : nat) (w w' : WingetUpdater) (t : Task) (q : list Task) :
  quit_code w = None ->
  queue w = t :: q ->
  dispatch env t (set_queue q w) = (w', Normal tt) ->
  exec_loop env (S n) w = exec_loop env n w'.
Proof.
  intros Hq Hqueue Hd. cbn [exec_loop]. rewrite Hq, Hqueue, Hd. reflexivity.
Qed.

Lemma exec_loop_idle (n : nat) (w : WingetUpdater) :
  quit_code w = None -> queue w = [] ->
  exec_loop env (S n) w = Some (w, Returned 0).
Proof. intros Hq Hqueue. cbn [exec_loop]. rewrite Hq, Hqueue. reflexivity. Qed.

Lemma exec_loop_quit (n : nat) (w : WingetUpdater) (rc : Z) :
  quit_code w = Some rc ->
  exec_loop env (S n) w = Some (w, Returned rc).
Proof. intros Hq. cbn [exec_loop]. rewrite Hq. reflexivity. Qed.

Lemma readyread_log (chunks : list pystr) : forall (w : WingetUpdater),
  log_view (run_passive env (map TReadyRead chunks) w)
  = log_view w ++ map rstrip chunks.
Proof.
  induction chunks as [|c l IH]; intros w; cbn [map].
  - symmetry. apply app_nil_r.
  - unfold run_passive in *. cbn [fold_left]. rewrite IH.
    unfold passive_step; cbn [dispatch f6G7h8 modify fst append_log log_view].
    rewrite <- app_assoc. reflexivity.
Qed.

Lemma readyread_passive (chunks : list pystr) :
  forallb is_passive (map TReadyRead chunks) = true.
Proof. induction chunks as [|c l IH]; simpl; [reflexivity | exact IH]. Qed.

(** *** The slots of the upgrade *)

Lemma c3D4e5_run (w : WingetUpdater) :
  exists w',
    c3D4e5 env w = (w', Normal tt)
    /\ trace w' = trace w ++ [EvProcessStart (lit "winget") WINGET_UPDATE_ARGS;
                              EvWaitForStarted 3000]
    /\ queue w' = queue w
                  ++ (if wait_started env
                      then map TReadyRead (proc_chunks env)
                           ++ [TFinished (proc_exit_code env) (proc_exit_status env)]
                      else [])
    /\ quit_code w' = quit_code w
    /\ status_label w' = (if wait_started env then lit "Updating..."
                          else lit "Launch error")
    /\ log_view w' = log_view w
                     ++ (nl ++ lit "--- Starting update of all packages ---")
                     :: (if wait_started env then []
                         else [lit "<b>Error:</b> Failed to start winget."]).
Proof.
  unfold c3D4e5, process_start, waitForStarted.
  destruct (wait_started env); eexists; (split; [reflexivity|]);
    cbn [trace queue quit_code status_label log_view set_visible set_status
         set_maximum append_log record enqueue set_queue];
    rewrite <- ?app_assoc, ?app_nil_r; repeat split; reflexivity.
Qed.

Lemma i9J0k1_run (w : WingetUpdater) :
  exists w',
    i9J0k1 (proc_exit_code env) (proc_exit_status env) w = (w', Normal tt)
    /\ trace w' = trace w
                  ++ (if upgrade_ok env then []
                      else [EvWarning (lit "Winget Error")
                              (warning_text (proc_exit_code env))])
    /\ queue w' = queue w
    /\ quit_code w' = quit_code w
    /\ status_label w'
       = (if upgrade_ok env
          then lit "Update completed successfully"
          else lit "Update error (code=" ++ str_of_int (proc_exit_code env) ++ lit ")")
    /\ log_view w'
       = log_view w
         ++ [if upgrade_ok env
             then nl ++ lit "--- Update completed without errors ---"
             else nl ++ lit "--- Finished with error (code="
                  ++ str_of_int (proc_exit_code env) ++ lit ") ---"].
Proof.
  unfold i9J0k1, upgrade_ok, warning_text.
  destruct (is_NormalExit (proc_exit_status env) && (proc_exit_code env =? 0));
    eexists; (split; [reflexivity|]);
    cbn [trace queue quit_code status_label log_view set_visible set_status
         set_maximum append_log record enqueue set_queue];
    rewrite ?app_nil_r; repeat split; reflexivity.
Qed.

(** From the launch of the upgrade to the end of the loop. *)
Lemma upgrade_phase (w : WingetUpdater) :
  quit_code w = None ->
  queue w = [TC3D4e5] ->
  exists w',
    exec_loop env (3 + List.length (proc_chunks env)) w = Some (w', Returned 0)
    /\ trace w' = trace w ++ upgrade_events env
    /\ status_label w' = upgrade_status env
    /\ log_view w' = log_view w ++ upgrade_log env.
Proof.
  intros Hq Hqueue.
  destruct (c3D4e5_run (set_queue [] w)) as (w1 & R1 & T1 & Q1 & C1 & S1 & L1).
  cbn [trace queue quit_code status_label log_view set_queue] in T1, Q1, C1, S1, L1.
  change (3 + List.length (proc_chunks env))%nat
    with (S (2 + List.length (proc_chunks env))).
  rewrite (exec_loop_step _ w w1 TC3D4e5 [] Hq Hqueue R1).
  unfold upgrade_events, upgrade_status, upgrade_log.
  destruct (wait_started env).
  - rewrite <- (set_queue_eta w1), Q1. cbn [app].
    rewrite Nat.add_comm, <- (length_map TReadyRead).
    rewrite exec_passive; [| apply readyread_passive | congruence].
    set (w2 := run_passive env (map TReadyRead (proc_chunks env)) w1).
    destruct (run_passive_frame (map TReadyRead (proc_chunks env)) w1
                (readyread_passive _)) as (T2 & _ & C2 & S2 & _).
    fold w2 in T2, C2, S2.
    destruct (i9J0k1_run (set_queue [] w2)) as (w3 & R3 & T3 & Q3 & C3 & S3 & L3).
    cbn [trace queue quit_code status_label log_view set_queue] in T3, Q3, C3, S3, L3.
    rewrite (exec_loop_step 1 (set_queue [TFinished _ _] w2) w3
               (TFinished (proc_exit_code env) (proc_exit_status env)) []);
      [| cbn [quit_code set_queue]; congruence | reflexivity | exact R3].
    rewrite exec_loop_idle; [| congruence | exact Q3].
    exists w3. split; [reflexivity|].
    rewrite T3, T2, T1, S3, L3. unfold w2. rewrite readyread_log, L1.
    rewrite <- !app_assoc. cbn [andb app].
    destruct (upgrade_ok env); cbn [negb app]; repeat split; reflexivity.
  - rewrite app_nil_r in Q1. cbn [Nat.add].
    rewrite exec_loop_idle; [| congruence | congruence].
    exists w1. split; [reflexivity|].
    rewrite T1, S1, L1. cbn [andb]. rewrite ?app_nil_r. repeat split; reflexivity.
Qed.

(** *** The bootstrap *)

Lemma passive_not_finished (sigs : list WorkerSignal) :
  forallb is_passive (map TSignal sigs) = true -> existsb is_finished sigs = false.
Proof.
  induction sigs as [|s l IH]; [reflexivity|].
  cbn [map forallb existsb]. intros H. apply andb_true_iff in H as [Hs Hl].
  rewrite (IH Hl). destruct s; (discriminate Hs || reflexivity).
Qed.

Lemma progress_signals_passive :
  forallb is_passive (map TSignal (progress_signals env)) = true.
Proof.
  unfold progress_signals. destruct (0 <? dl_size env); [|reflexivity].
  induction (0 :: hook_calls (dl_blocks env) 0) as [|k l IH]; [reflexivity | exact IH].
Qed.

Lemma hook_calls_length (blocks : list Z) : forall (blocknum : Z),
  List.length (hook_calls blocks blocknum) = List.length blocks.
Proof.
  induction blocks as [|b l IH]; intros blocknum; simpl; [|rewrite IH]; reflexivity.
Qed.

Lemma progress_signals_length :
  (List.length (progress_signals env) <= 1 + List.length (dl_blocks env))%nat.
Proof.
  unfold progress_signals. destruct (0 <? dl_size env); simpl; [|lia].
  rewrite length_map, hook_calls_length. lia.
Qed.

(** The worker emits log and progress signals, then [finished] once, last. *)
Lemma worker_signals_shape (field : option pystr) :
  exists pre,
    emitted (worker_events env field)
    = pre ++ [SigFinished (fst (worker_verdict env field))
                          (snd (worker_verdict env field))]
    /\ forallb is_passive (map TSignal pre) = true
    /\ (List.length pre <= 5 + List.length (dl_blocks env))%nat.
Proof.
  pose proof progress_signals_passive as Hp.
  pose proof progress_signals_length as Hl.
  unfold worker_events, worker_verdict.
  destruct field as [path|]; cbn [emitted].
  - rewrite emitted_app. unfold download_events, download_error in *.
    cbn [emitted].
    destruct (dl_open_error env) as [msg|].
    { eexists [_]. repeat split; try reflexivity. cbn [List.length]. lia. }
    rewrite emitted_map_emit.
    destruct (dl_read_error env) as [msg|].
    { exists (SigLog (lit "Downloading msix package" ++ [8230%N] ++ lit " ("
                      ++ WINGET_MSIX_URL ++ lit ")") :: progress_signals env).
      cbn [emitted fst snd app map forallb is_passive List.length andb].
      repeat split; [exact Hp | lia]. }
    destruct ((0 <=? dl_size env) && (total_read env <? dl_size env)).
    { exists (SigLog (lit "Downloading msix package" ++ [8230%N] ++ lit " ("
                      ++ WINGET_MSIX_URL ++ lit ")") :: progress_signals env).
      cbn [emitted fst snd app map forallb is_passive List.length andb].
      repeat split; [exact Hp | lia]. }
    rewrite emitted_app. cbn [emitted]. unfold install_events.
    destruct (installer env) as [msg|proc]; [|destruct (negb (returncode proc =? 0))];
      cbn [emitted fst snd].
    + exists (SigLog (lit "Downloading msix package" ++ [8230%N] ++ lit " ("
                      ++ WINGET_MSIX_URL ++ lit ")")
              :: progress_signals env
              ++ [SigLog (lit "Saved to " ++ path);
                  SigLog (lit "Installing App Installer package (winget)" ++ [8230%N])]).
      cbn [app]. rewrite <- !app_assoc. split; [reflexivity|].
      cbn [map forallb is_passive andb List.length].
      rewrite map_app, forallb_app, Hp, length_app.
      split; [reflexivity | cbn [List.length]; lia].
    + exists (SigLog (lit "Downloading msix package" ++ [8230%N] ++ lit " ("
                      ++ WINGET_MSIX_URL ++ lit ")")
              :: progress_signals env
              ++ [SigLog (lit "Saved to " ++ path);
                  SigLog (lit "Installing App Installer package (winget)" ++ [8230%N])]).
      cbn [app]. rewrite <- !app_assoc. split; [reflexivity|].
      cbn [map forallb is_passive andb List.length].
      rewrite map_app, forallb_app, Hp, length_app.
      split; [reflexivity | cbn [List.length]; lia].
    + exists (SigLog (lit "Downloading msix package" ++ [8230%N] ++ lit " ("
                      ++ WINGET_MSIX_URL ++ lit ")")
              :: progress_signals env
              ++ [SigLog (lit "Saved to " ++ path);
                  SigLog (lit "Installing App Installer package (winget)" ++ [8230%N]);
                  SigLog (lit "Installation completed successfully.")]).
      cbn [app]. rewrite <- !app_assoc. split; [reflexivity|].
      cbn [map forallb is_passive andb List.length].
      rewrite map_app, forallb_app, Hp, length_app.
      split; [reflexivity | cbn [List.length]; lia].
  - eexists [_]. repeat split; try reflexivity. cbn [List.length]. lia.
Qed.

Lemma worker_verdict_ok (path : pystr) :
  fst (worker_verdict env (Some path)) = bootstrap_ok env.
Proof.
  unfold worker_verdict, bootstrap_ok.
  destruct (download_error env); [reflexivity|].
  destruct (installer env) as [msg|proc]; [reflexivity|].
  destruct (returncode proc =? 0); reflexivity.
Qed.

Lemma z0A1b2_run (success : bool) (message : pystr) (w : WingetUpdater) :
  exists w',
    z0A1b2 success message w = (w', Normal tt)
    /\ trace w' = trace w
                  ++ (if success then [EvSingleShot 500 TC3D4e5]
                      else fatal_events (lit "winget installation failed." ++ nl ++ message))
    /\ queue w' = queue w ++ (if success then [TC3D4e5] else [])
    /\ quit_code w' = (if success then quit_code w else Some 0)
    /\ status_label w' = status_label w.
Proof.
  unfold z0A1b2, fatal_events.
  destruct success; eexists; (split; [reflexivity|]);
    cbn [trace queue quit_code status_label log_view set_visible set_status
         set_maximum append_log record enqueue set_queue set_quit_code];
    rewrite <- ?app_assoc, ?app_nil_r; repeat split; reflexivity.
Qed.

(** From the first queued worker signal to the end of the loop. *)
Lemma bootstrap_phase (field : option pystr) (w : WingetUpdater) :
  quit_code w = None ->
  queue w = map TSignal (emitted (worker_events env field)) ->
  exists n w',
    (n <= 9 + List.length (dl_blocks env) + List.length (proc_chunks env))%nat
    /\ exec_loop env n w = Some (w', Returned 0)
    /\ trace w'
       = trace w
         ++ (if fst (worker_verdict env field)
             then EvSingleShot 500 TC3D4e5 :: upgrade_events env
             else fatal_events (lit "winget installation failed." ++ nl
                                ++ snd (worker_verdict env field)))
    /\ status_label w'
       = (if fst (worker_verdict env field) then upgrade_status env else status_label w)
    /\ (fst (worker_verdict env field) = true ->
        exists pre, log_view w' = pre ++ upgrade_log env).
Proof.
  intros Hq Hqueue.
  destruct (worker_signals_shape field) as (pre & Hshape & Hpass & Hlen).
  rewrite Hshape, map_app in Hqueue. cbn [map] in Hqueue.
  destruct (run_passive_frame (map TSignal pre) w Hpass) as (T2 & _ & C2 & S2 & _).
  remember (run_passive env (map TSignal pre) w) as w2 eqn:Ew2.
  destruct (z0A1b2_run (fst (worker_verdict env field)) (snd (worker_verdict env field))
              (set_queue [] w2)) as (w3 & R3 & T3 & Q3 & C3 & S3).
  cbn [trace queue quit_code status_label set_queue app] in T3, Q3, C3, S3.
  assert (Hstep : forall n,
             exec_loop env (List.length (map TSignal pre) + S n) w = exec_loop env n w3).
  { intros n.
    transitivity (exec_loop env (List.length (map TSignal pre) + S n)
                    (set_queue (queue w) w)).
    { rewrite set_queue_eta. reflexivity. }
    rewrite Hqueue, exec_passive by assumption. rewrite <- Ew2.
    apply exec_loop_step
      with (t := TSignal (SigFinished (fst (worker_verdict env field))
                                      (snd (worker_verdict env field))))
           (q := []);
      [cbn [quit_code set_queue]; congruence | reflexivity | exact R3]. }
  rewrite length_map in Hstep.
  destruct (fst (worker_verdict env field)).
  - destruct (upgrade_phase w3) as (w4 & R4 & T4 & S4 & L4); [congruence | exact Q3 |].
    exists (List.length pre + S (3 + List.length (proc_chunks env)))%nat, w4.
    split; [lia|]. rewrite Hstep. split; [exact R4|].
    rewrite T4, T3, T2, <- app_assoc. repeat split; try assumption.
    intros _. eexists. exact L4.
  - exists (List.length pre + 2)%nat, w3.
    split; [lia|]. rewrite Hstep. split; [apply exec_loop_quit; exact C3|].
    rewrite T3, T2, S3, S2. repeat split. discriminate.
Qed.

(** *** The whole run *)

Lemma o5P6q7_run (msg : pystr) (w : WingetUpdater) :
  exists w',
    o5P6q7 msg w = (w', Normal tt)
    /\ trace w' = trace w ++ fatal_events msg
    /\ quit_code w' = Some 0
    /\ status_label w' = status_label w.
Proof.
  eexists. split; [reflexivity|].
  cbn [trace queue quit_code status_label log_view append_log record set_quit_code].
  rewrite <- app_assoc. repeat split; reflexivity.
Qed.

(** [run] ends, and does what the closed form says. *)
Lemma run_closed_form :
  exists w,
    run env = Some (w, run_end env)
    /\ trace w = run_trace env
    /\ status_label w = run_status env
    /\ (upgrade_launched env = true -> exists pre, log_view w = pre ++ upgrade_log env).
Proof.
  unfold run, run_fuel, run_trace, run_status, run_end, upgrade_launched, platform_supported.
  set (fuel := (11 + List.length (dl_blocks env) + List.length (proc_chunks env))%nat).
  change (12 + List.length (dl_blocks env) + List.length (proc_chunks env))%nat
    with (S fuel).
  cbn [exec_loop].
  change (quit_code init_window) with (@None Z).
  change (queue init_window) with [TQ1R2s3].
  cbv beta iota. cbn [dispatch].
  set (w0 := set_queue [] init_window).
  unfold q1R2s3.
  destruct (pystr_eqb (platform_system env) (lit "Windows")); cbn [negb andb].
  2: { destruct (o5P6q7_run (lit "This program runs only on Windows.") w0)
         as (w1 & R1 & T1 & C1 & S1).
       rewrite R1.
       exists w1. subst fuel. cbn [Nat.add]. rewrite (exec_loop_quit _ _ 0 C1).
       repeat split; [exact T1 | exact S1 | discriminate]. }
  destruct (pystr_eqb (platform_release env) (lit "10")
            || pystr_eqb (platform_release env) (lit "11")); cbn [negb andb].
  2: { destruct (o5P6q7_run (lit "Only Windows 10 and Windows 11 are supported.") w0)
         as (w1 & R1 & T1 & C1 & S1).
       rewrite R1.
       exists w1. subst fuel. cbn [Nat.add]. rewrite (exec_loop_quit _ _ 0 C1).
       repeat split; [exact T1 | exact S1 | discriminate]. }
  unfold bind at 1. unfold a7B2cD3, elevated.
  unfold bind at 1. unfold effect at 1. unfold modify at 1. cbv beta iota.
  unfold ret at 1. cbv beta iota.
  destruct (match IsUserAnAdmin env with
            | Some r => negb (r =? 0)
            | None => false
            end); cbn [negb andb orb].
  2: { eexists. split; [reflexivity|].
       cbn [trace status_label record set_queue append_log]. cbn [app].
       repeat split. discriminate. }
  unfold bind at 1. unfold ret at 1. cbv beta iota.
  unfold bind at 1. unfold l2M3n4 at 1. unfold modify at 1. cbv beta iota.
  unfold bind at 1. unfold i5J6kL7, winget_present.
  unfold bind at 1. unfold effect at 1. unfold modify at 1. cbv beta iota.
  unfold ret at 1. cbv beta iota.
  destruct (which_winget env) as [exe|]; cbn [orb].
  - unfold bind at 1. unfold l2M3n4 at 1. unfold modify at 1. cbv beta iota.
    unfold singleShot. unfold bind at 1. unfold effect at 1. unfold modify at 1.
    cbv beta iota. unfold modify at 1. cbv beta iota.
    match goal with
    | |- context [exec_loop env fuel ?w] => set (w1 := w)
    end.
    destruct (upgrade_phase w1) as (w2 & R2 & T2 & S2 & L2); [reflexivity | reflexivity |].
    apply exec_loop_mono with (m := fuel) in R2; [| subst fuel; lia].
    exists w2. rewrite R2, T2, S2.
    split; [reflexivity|]. split; [reflexivity|]. split; [reflexivity|].
    intros _. exists (log_view w1). exact L2.
  - unfold bind at 1. unfold l2M3n4 at 1. unfold modify at 1. cbv beta iota.
    unfold t4U5v6, thread_start.
    repeat (unfold bind at 1; first [unfold modify at 1 | unfold effect at 1; unfold modify at 1];
            cbv beta iota).
    rewrite worker_run. cbn [fst msix_path perform set_msix_path record].
    fold (temp_path env).
    match goal with
    | |- context [exec_loop env fuel ?w] => set (w1 := w)
    end.
    destruct (bootstrap_phase (Some (temp_path env)) w1)
      as (n & w2 & Hn & R2 & T2 & S2 & L2); [reflexivity | reflexivity |].
    apply exec_loop_mono with (m := fuel) in R2; [| subst fuel; lia].
    rewrite worker_verdict_ok in T2, S2, L2.
    exists w2. rewrite R2, T2, S2. subst w1.
    cbn [trace status_label app perform set_msix_path record set_visible set_maximum
         append_log set_queue init_window].
    unfold bootstrap_events. rewrite <- !app_assoc. cbn [app].
    destruct (bootstrap_ok env); repeat split; try reflexivity; try discriminate.
    exact L2.
Qed.

End LoopFacts.

(** ** Terminal states *)

Lemma terminal_failed_report (w : WingetUpdater) (e : Event) :
  In e (trace w) -> is_failure_report e = true -> terminal_state w = Some Failed.
Proof.
  intros Hin He. unfold terminal_state.
  assert (H : existsb is_failure_report (trace w) = true).
  { apply existsb_exists. exists e. split; assumption. }
  rewrite H. reflexivity.
Qed.

Lemma terminal_failed_launch (w : WingetUpdater) :
  status_label w = lit "Launch error" -> terminal_state w = Some Failed.
Proof.
  intros H. unfold terminal_state. rewrite H, pystr_eqb_refl, orb_true_r. reflexivity.
Qed.

Lemma terminal_succeeded (w : WingetUpdater) :
  existsb is_failure_report (trace w) = false ->
  status_label w = lit "Update completed successfully" ->
  terminal_state w = Some Succeeded.
Proof. intros H1 H2. unfold terminal_state. rewrite H1, H2. reflexivity. Qed.

Lemma worker_events_kind (env : Env) (field : option pystr) :
  forallb is_worker_event (worker_events env field) = true.
Proof.
  assert (Hmap : forall sigs, forallb is_worker_event (map EvEmit sigs) = true).
  { induction sigs as [|s l IH]; [reflexivity | exact IH]. }
  unfold worker_events. destruct field as [path|]; [|reflexivity].
  cbn [forallb is_worker_event andb]. rewrite forallb_app.
  apply andb_true_iff. split.
  - unfold download_events. cbn [forallb is_worker_event andb].
    destruct (dl_open_error env); [reflexivity | apply Hmap].
  - destruct (download_error env); [reflexivity|].
    unfold install_events. cbn [app forallb is_worker_event andb].
    destruct (installer env) as [msg|proc]; [reflexivity|].
    destruct (negb (returncode proc =? 0)); reflexivity.
Qed.

Lemma worker_event_in (env : Env) (field : option pystr) (e : Event) :
  In e (worker_events env field) -> is_worker_event e = true.
Proof.
  intros H. pose proof (worker_events_kind env field) as Hk.
  rewrite forallb_forall in Hk. apply Hk. exact H.
Qed.

Lemma platform_supported_iff (env : Env) :
  platform_supported env = true
  <-> platform_system env = lit "Windows"
      /\ (platform_release env = lit "10" \/ platform_release env = lit "11").
Proof.
  unfold platform_supported.
  rewrite andb_true_iff, orb_true_iff, !pystr_eqb_eq. reflexivity.
Qed.

(** ** The closed form, read by cases *)

Lemma worker_events_exclude (env : Env) (field : option pystr) (P : Event -> bool) :
  (forall e, is_worker_event e = true -> P e = false) ->
  existsb P (worker_events env field) = false.
Proof.
  intros HP.
  destruct (existsb P (worker_events env field)) eqn:E; [|reflexivity].
  apply existsb_exists in E as (e & Hin & He).
  apply worker_event_in in Hin. rewrite (HP e Hin) in He. discriminate.
Qed.

Lemma worker_not_report (e : Event) : is_worker_event e = true -> is_failure_report e = false.
Proof. destruct e; (discriminate || reflexivity). Qed.

Lemma worker_not_process_start (e : Event) :
  is_worker_event e = true -> is_process_start e = false.
Proof. destruct e; (discriminate || reflexivity). Qed.

Lemma bootstrap_ok_iff (env : Env) :
  bootstrap_ok env = true
  <-> download_error env = None
      /\ exists proc, installer env = Completed proc /\ returncode proc = 0.
Proof.
  unfold bootstrap_ok.
  destruct (download_error env) as [msg|].
  - split; [discriminate | intros [H _]; discriminate].
  - destruct (installer env) as [msg|proc].
    + split; [discriminate | intros (_ & proc & H & _); discriminate].
    + rewrite Z.eqb_eq. split.
      * intros H. split; [reflexivity|]. exists proc. split; [reflexivity | exact H].
      * intros (_ & proc' & H & Hrc). injection H as <-. exact Hrc.
Qed.

Lemma upgrade_ok_iff (env : Env) :
  upgrade_ok env = true
  <-> proc_exit_status env = NormalExit /\ proc_exit_code env = 0.
Proof.
  unfold upgrade_ok. rewrite andb_true_iff, Z.eqb_eq.
  destruct (proc_exit_status env); simpl; split; intros [H1 H2];
    (split; [reflexivity || discriminate | exact H2]).
Qed.

(** A run that launches the upgrade: everything before is free of failure
    reports, and the loop ends by returning. *)
Lemma launched_trace (env : Env) :
  upgrade_launched env = true ->
  exists pre,
    run_trace env = pre ++ upgrade_events env
    /\ existsb is_failure_report pre = false
    /\ run_end env = Returned 0
    /\ In (EvWhich (lit "winget")) pre.
Proof.
  unfold upgrade_launched, run_trace, run_end, platform_supported.
  destruct (pystr_eqb (platform_system env) (lit "Windows")); [|discriminate].
  destruct (pystr_eqb (platform_release env) (lit "10")
            || pystr_eqb (platform_release env) (lit "11")); [|discriminate].
  destruct (elevated env); [|discriminate].
  cbn [andb negb]. destruct (winget_present env); cbn [orb].
  - intros _. exists [EvSingleShot 0 TQ1R2s3; EvIsUserAnAdmin; EvWhich (lit "winget");
                      EvSingleShot 200 TC3D4e5].
    repeat split. right. right. left. reflexivity.
  - intros Hok. unfold bootstrap_events. rewrite Hok.
    exists ([EvSingleShot 0 TQ1R2s3; EvIsUserAnAdmin; EvWhich (lit "winget"); EvThreadStart]
            ++ worker_events env (Some (temp_path env)) ++ [EvSingleShot 500 TC3D4e5]).
    split; [rewrite <- !app_assoc; reflexivity|].
    split; [|split; [reflexivity | right; right; left; reflexivity]].
    rewrite !existsb_app, (worker_events_exclude _ _ _ worker_not_report). reflexivity.
Qed.

(** A run that does not launch the upgrade starts no process. *)
Lemma unlaunched_trace (env : Env) :
  upgrade_launched env = false ->
  existsb is_process_start (run_trace env) = false
  /\ (In (EvWhich (lit "winget")) (run_trace env) ->
      winget_present env = false
      /\ bootstrap_ok env = false
      /\ In (EvCritical (lit "Error")
               (lit "winget installation failed." ++ nl
                ++ snd (worker_verdict env (Some (temp_path env)))))
            (run_trace env)).
Proof.
  unfold upgrade_launched, run_trace, platform_supported.
  destruct (pystr_eqb (platform_system env) (lit "Windows")); cbn [andb negb].
  2: { intros _. split; [reflexivity|]. cbn [In].
       intros [H|[H|[H|[]]]]; discriminate H. }
  destruct (pystr_eqb (platform_release env) (lit "10")
            || pystr_eqb (platform_release env) (lit "11")); cbn [andb negb].
  2: { intros _. split; [reflexivity|]. cbn [In].
       intros [H|[H|[H|[]]]]; discriminate H. }
  destruct (elevated env); cbn [andb negb].
  2: { intros _. split; [reflexivity|]. cbn [In].
       intros [H|[H|[H|[]]]]; discriminate H. }
  destruct (winget_present env); cbn [orb]; [discriminate|].
  intros Hok. unfold bootstrap_events. rewrite Hok. split.
  - cbn [existsb is_process_start orb]. rewrite existsb_app.
    rewrite (worker_events_exclude _ _ _ worker_not_process_start). reflexivity.
  - intros _. split; [reflexivity|]. split; [reflexivity|].
    do 4 right. apply in_or_app. right. left. reflexivity.
Qed.

Lemma launched_iff_process_start (env : Env) :
  existsb is_process_start (run_trace env) = upgrade_launched env.
Proof.
  destruct (upgrade_launched env) eqn:E.
  - destruct (launched_trace env E) as (pre & T & _).
    rewrite T, existsb_app. unfold upgrade_events. cbn [app existsb is_process_start orb].
    apply orb_true_r.
  - apply (unlaunched_trace env E).
Qed.

(** ** The claims *)

(** Finds an element in a list that is written out. *)
Ltac find_in := vm_compute; repeat (first [left; reflexivity | right]).

(** Evaluates the run of a concrete host. *)
Ltac eval_run := eexists; eexists; split; [vm_compute; reflexivity|].

(** C1 (as the code has it).  Every run ends, and the host process leaves
    with exit code 0: after the successful upgrade path, after every run that
    ends in the Failed state (a fatal error calls [quit()], which makes
    [exec_] return 0; after a failed launch or a failed upgrade the loop
    returns 0 once the window is closed), and after the elevation relaunch
    ([sys.exit(0)]).  No path of the program leaves with another code. *)
Theorem host_exit_code_is_zero (env : Env) :
  exists w e, run env = Some (w, e) /\ A7b8C9 env = Some (ExitCode 0).
Proof.
  destruct (run_closed_form env) as (w & R & _).
  exists w, (run_end env). split; [exact R|].
  unfold A7b8C9. rewrite R. unfold run_end.
  destruct (platform_supported env && negb (elevated env)); reflexivity.
Qed.

(** C1, refuted as stated: on a host that is not Windows the run ends in the
    Failed state, and the host process still leaves with exit code 0. *)
Lemma failed_run_exits_zero :
  exists w e,
    run linux_env = Some (w, e)
    /\ terminal_state w = Some Failed
    /\ A7b8C9 linux_env = Some (ExitCode 0).
Proof. eval_run. split; vm_compute; reflexivity. Qed.

(** C2 (as the code has it).  [e9F1gH4] issues the elevation request
    ([runas]) for the same executable with the quoted arguments joined by
    spaces, and then leaves the current process with exit code 0, whatever
    the request returned: the returned value is not looked at. *)
Theorem elevate_and_restart_exits_zero (env : Env) (w : WingetUpdater) :
  exists w',
    e9F1gH4 env w = (w', Raised (SystemExit 0))
    /\ trace w' = trace w
                  ++ [EvShellExecuteW (lit "runas") (sys_executable env)
                        (join_space (map quoted (sys_argv env))) 1].
Proof. eexists. split; reflexivity. Qed.

(** C2, refuted as stated: the elevation request is refused (the call
    returns 5, not more than 32), and the process leaves with exit code 0
    all the same. *)
Lemma refused_elevation_exits_zero :
  ShellExecuteW denied_env = 5
  /\ snd (e9F1gH4 denied_env init_window) = Raised (SystemExit 0)
  /\ A7b8C9 denied_env = Some (ExitCode 0).
Proof. repeat split; vm_compute; reflexivity. Qed.

(** C5.  On a platform other than Windows release 10 or 11 the run ends in
    the Failed state with nothing but the fatal report: no privilege check,
    no elevation request, no probe, no thread, no download and no process
    appears among its effects. *)
Theorem unsupported_platform_fails_first (env : Env) :
  ~ (platform_system env = lit "Windows"
     /\ (platform_release env = lit "10" \/ platform_release env = lit "11")) ->
  exists w msg,
    run env = Some (w, Returned 0)
    /\ terminal_state w = Some Failed
    /\ trace w = [EvSingleShot 0 TQ1R2s3; EvCritical (lit "Error") msg; EvQuit]
    /\ existsb is_host_operation (trace w) = false.
Proof.
  intros Hns. rewrite <- platform_supported_iff in Hns.
  apply not_true_is_false in Hns.
  destruct (run_closed_form env) as (w & R & T & _).
  unfold run_end in R. rewrite Hns in R. cbn [andb] in R.
  unfold run_trace, platform_supported in *.
  destruct (pystr_eqb (platform_system env) (lit "Windows")); cbn [negb andb] in *.
  - rewrite Hns in T. cbn [negb] in T.
    exists w, (lit "Only Windows 10 and Windows 11 are supported.").
    split; [exact R|]. split; [|split; [exact T | rewrite T; reflexivity]].
    apply terminal_failed_report with (e := EvCritical (lit "Error")
      (lit "Only Windows 10 and Windows 11 are supported.")); [|reflexivity].
    rewrite T. right. left. reflexivity.
  - exists w, (lit "This program runs only on Windows.").
    split; [exact R|]. split; [|split; [exact T | rewrite T; reflexivity]].
    apply terminal_failed_report with (e := EvCritical (lit "Error")
      (lit "This program runs only on Windows.")); [|reflexivity].
    rewrite T. right. left. reflexivity.
Qed.

Lemma unsupported_platform_fails_first_witness :
  ~ (platform_system linux_env = lit "Windows"
     /\ (platform_release linux_env = lit "10" \/ platform_release linux_env = lit "11"))
  /\ exists w msg,
       run linux_env = Some (w, Returned 0)
       /\ terminal_state w = Some Failed
       /\ trace w = [EvSingleShot 0 TQ1R2s3; EvCritical (lit "Error") msg; EvQuit]
       /\ existsb is_host_operation (trace w) = false.
Proof.
  assert (H : ~ (platform_system linux_env = lit "Windows"
                 /\ (platform_release linux_env = lit "10"
                     \/ platform_release linux_env = lit "11"))).
  { intros [H _]. vm_compute in H. discriminate H. }
  split; [exact H | exact (unsupported_platform_fails_first linux_env H)].
Defined.

(** C3.  In a run whose probe finds no winget, the upgrade process is
    started if and only if the download raised no exception and the
    installer ended with code 0; otherwise no process is started and the run
    ends in the Failed state. *)
Theorem bootstrap_gates_upgrade (env : Env) :
  which_winget env = None ->
  exists w e,
    run env = Some (w, e)
    /\ (In (EvWhich (lit "winget")) (trace w) ->
        (existsb is_process_start (trace w) = true
         <-> download_error env = None
             /\ exists proc, installer env = Completed proc /\ returncode proc = 0)
        /\ (existsb is_process_start (trace w) = true ->
            In (EvProcessStart (lit "winget") WINGET_UPDATE_ARGS) (trace w))
        /\ (existsb is_process_start (trace w) = false ->
            terminal_state w = Some Failed)).
Proof.
  intros Habsent.
  destruct (run_closed_form env) as (w & R & T & _).
  exists w, (run_end env). split; [exact R|].
  rewrite T, launched_iff_process_start, <- bootstrap_ok_iff.
  intros Hprobe.
  destruct (upgrade_launched env) eqn:E.
  - assert (Hok : bootstrap_ok env = true).
    { unfold upgrade_launched, winget_present in E. rewrite Habsent in E.
      apply andb_true_iff in E as [_ E]. exact E. }
    split; [split; intros _; [exact Hok | reflexivity]|].
    split; [|discriminate].
    intros _. destruct (launched_trace env E) as (pre & Tp & _).
    rewrite Tp. apply in_or_app. right. left. reflexivity.
  - destruct (unlaunched_trace env E) as (_ & Hu).
    destruct (Hu Hprobe) as (_ & Hok & Hmsg).
    split; [split; intros H; [discriminate H | congruence]|].
    split; [discriminate|].
    intros _. rewrite <- T in Hmsg.
    apply (terminal_failed_report w _ Hmsg). reflexivity.
Qed.

Lemma bootstrap_gates_upgrade_witness :
  which_winget http404_env = None
  /\ (exists w e,
       run http404_env = Some (w, e)
       /\ (In (EvWhich (lit "winget")) (trace w) ->
           (existsb is_process_start (trace w) = true
            <-> download_error http404_env = None
                /\ exists proc, installer http404_env = Completed proc
                                /\ returncode proc = 0)
           /\ (existsb is_process_start (trace w) = true ->
               In (EvProcessStart (lit "winget") WINGET_UPDATE_ARGS) (trace w))
           /\ (existsb is_process_start (trace w) = false ->
               terminal_state w = Some Failed)))
  /\ exists w e,
       run http404_env = Some (w, e)
       /\ In (EvWhich (lit "winget")) (trace w)
       /\ existsb is_process_start (trace w) = false
       /\ terminal_state w = Some Failed.
Proof.
  split; [reflexivity|].
  split; [exact (bootstrap_gates_upgrade http404_env eq_refl)|].
  eval_run. split; [find_in|]. split; reflexivity.
Defined.

(** C4.  In a run whose upgrade process started and ended, the run is in
    the Succeeded state exactly when the process ended normally with code 0;
    otherwise it is in the Failed state, and both the status line and the
    warning box carry the exit code. *)
Theorem upgrade_outcome (env : Env) :
  wait_started env = true ->
  exists w e,
    run env = Some (w, e)
    /\ (existsb is_process_start (trace w) = true ->
        (terminal_state w = Some Succeeded
         <-> proc_exit_status env = NormalExit /\ proc_exit_code env = 0)
        /\ (~ (proc_exit_status env = NormalExit /\ proc_exit_code env = 0) ->
            terminal_state w = Some Failed
            /\ status_label w
               = lit "Update error (code=" ++ str_of_int (proc_exit_code env) ++ lit ")"
            /\ In (EvWarning (lit "Winget Error")
                     (lit "The update finished with an error (code="
                      ++ str_of_int (proc_exit_code env) ++ lit ")." ++ nl
                      ++ lit "See the log above for details."))
                  (trace w))).
Proof.
  intros Hstarted.
  destruct (run_closed_form env) as (w & R & T & S & _).
  exists w, (run_end env). split; [exact R|].
  rewrite T, launched_iff_process_start, <- upgrade_ok_iff. intros E.
  destruct (launched_trace env E) as (pre & Tp & Hpre & _).
  unfold run_status in S. rewrite E in S. unfold upgrade_status in S.
  rewrite Hstarted in S.
  unfold upgrade_events in Tp. rewrite Hstarted in Tp. cbn [andb] in Tp.
  destruct (upgrade_ok env); cbn [negb] in Tp.
  - split; [|intros H; exfalso; apply H; reflexivity].
    split; [reflexivity|]. intros _.
    apply terminal_succeeded; [|exact S].
    rewrite T, Tp, existsb_app, Hpre. reflexivity.
  - assert (Hw : In (EvWarning (lit "Winget Error")
                       (lit "The update finished with an error (code="
                        ++ str_of_int (proc_exit_code env) ++ lit ")." ++ nl
                        ++ lit "See the log above for details.")) (trace w)).
    { rewrite T, Tp. apply in_or_app. right. do 2 right. left. reflexivity. }
    assert (Hf : terminal_state w = Some Failed).
    { apply (terminal_failed_report w _ Hw). reflexivity. }
    split.
    + split; [rewrite Hf; discriminate | discriminate].
    + intros _. split; [exact Hf|]. split; [exact S | rewrite <- T; exact Hw].
Qed.

Lemma upgrade_outcome_witness :
  wait_started present_env = true
  /\ (exists w e,
       run present_env = Some (w, e)
       /\ (existsb is_process_start (trace w) = true ->
           (terminal_state w = Some Succeeded
            <-> proc_exit_status present_env = NormalExit
                /\ proc_exit_code present_env = 0)
           /\ (~ (proc_exit_status present_env = NormalExit
                  /\ proc_exit_code present_env = 0) ->
               terminal_state w = Some Failed
               /\ status_label w
                  = lit "Update error (code=" ++ str_of_int (proc_exit_code present_env)
                    ++ lit ")"
               /\ In (EvWarning (lit "Winget Error")
                        (lit "The update finished with an error (code="
                         ++ str_of_int (proc_exit_code present_env) ++ lit ")." ++ nl
                         ++ lit "See the log above for details."))
                     (trace w))))
  /\ exists w e,
       run present_env = Some (w, e)
       /\ existsb is_process_start (trace w) = true
       /\ terminal_state w = Some Failed
       /\ status_label w = lit "Update error (code=1)".
Proof.
  split; [reflexivity|].
  split; [exact (upgrade_outcome present_env eq_refl)|].
  eval_run. repeat split; reflexivity.
Defined.

(** C6.  In a run whose probe finds winget, no thread is started, nothing
    is downloaded and no installer is run; right after the probe comes the
    timer for [c3D4e5], and then the start of the upgrade process. *)
Theorem present_skips_bootstrap (env : Env) (exe : pystr) :
  which_winget env = Some exe ->
  exists w e,
    run env = Some (w, e)
    /\ existsb is_bootstrap_operation (trace w) = false
    /\ (In (EvWhich (lit "winget")) (trace w) ->
        exists rest,
          trace w = [EvSingleShot 0 TQ1R2s3; EvIsUserAnAdmin; EvWhich (lit "winget");
                     EvSingleShot 200 TC3D4e5;
                     EvProcessStart (lit "winget") WINGET_UPDATE_ARGS]
                    ++ rest).
Proof.
  intros Hpresent.
  destruct (run_closed_form env) as (w & R & T & _).
  exists w, (run_end env). split; [exact R|]. rewrite T.
  unfold run_trace, winget_present. rewrite Hpresent.
  destruct (pystr_eqb (platform_system env) (lit "Windows")); cbn [negb].
  2: { split; [reflexivity|]. cbn [In]. intros [H|[H|[H|[]]]]; discriminate H. }
  destruct (pystr_eqb (platform_release env) (lit "10")
            || pystr_eqb (platform_release env) (lit "11")); cbn [negb].
  2: { split; [reflexivity|]. cbn [In]. intros [H|[H|[H|[]]]]; discriminate H. }
  destruct (elevated env); cbn [negb].
  2: { split; [reflexivity|]. cbn [In]. intros [H|[H|[H|[]]]]; discriminate H. }
  unfold upgrade_events. split.
  - destruct (wait_started env && negb (upgrade_ok env)); reflexivity.
  - intros _. eexists. reflexivity.
Qed.

Lemma present_skips_bootstrap_witness :
  which_winget present_env
  = Some (lit "C:\Users\u\AppData\Local\Microsoft\WindowsApps\winget.EXE")
  /\ (exists w e,
       run present_env = Some (w, e)
       /\ existsb is_bootstrap_operation (trace w) = false
       /\ (In (EvWhich (lit "winget")) (trace w) ->
           exists rest,
             trace w = [EvSingleShot 0 TQ1R2s3; EvIsUserAnAdmin; EvWhich (lit "winget");
                        EvSingleShot 200 TC3D4e5;
                        EvProcessStart (lit "winget") WINGET_UPDATE_ARGS]
                       ++ rest))
  /\ exists w e, run present_env = Some (w, e) /\ In (EvWhich (lit "winget")) (trace w).
Proof.
  split; [reflexivity|].
  split; [exact (present_skips_bootstrap present_env _ eq_refl)|].
  eval_run. find_in.
Defined.

(** C9.  When [waitForStarted(3000)] reports that the process did not
    start, the run does not hang: the loop ends, the wait was the bounded
    one, the log ends with the launch error, the status is "Launch error"
    and the run is in the Failed state. *)
Theorem launch_failure_reported (env : Env) :
  wait_started env = false ->
  exists w e,
    run env = Some (w, e)
    /\ (existsb is_process_start (trace w) = true ->
        e = Returned 0
        /\ In (EvWaitForStarted 3000) (trace w)
        /\ status_label w = lit "Launch error"
        /\ terminal_state w = Some Failed
        /\ exists pre,
             log_view w = pre ++ [nl ++ lit "--- Starting update of all packages ---";
                                  lit "<b>Error:</b> Failed to start winget."]).
Proof.
  intros Hfailed.
  destruct (run_closed_form env) as (w & R & T & S & L).
  exists w, (run_end env). split; [exact R|].
  rewrite T, launched_iff_process_start. intros E.
  destruct (launched_trace env E) as (pre & Tp & _ & Hend & _).
  unfold run_status in S. rewrite E in S. unfold upgrade_status in S.
  rewrite Hfailed in S.
  destruct (L E) as (lpre & Hl). unfold upgrade_log in Hl. rewrite Hfailed in Hl.
  split; [exact Hend|]. split; [|split; [exact S|split]].
  - rewrite Tp. apply in_or_app. right. right. left. reflexivity.
  - apply terminal_failed_launch. exact S.
  - exists lpre. exact Hl.
Qed.

Lemma launch_failure_reported_witness :
  wait_started nostart_env = false
  /\ (exists w e,
       run nostart_env = Some (w, e)
       /\ (existsb is_process_start (trace w) = true ->
           e = Returned 0
           /\ In (EvWaitForStarted 3000) (trace w)
           /\ status_label w = lit "Launch error"
           /\ terminal_state w = Some Failed
           /\ exists pre,
                log_view w = pre ++ [nl ++ lit "--- Starting update of all packages ---";
                                     lit "<b>Error:</b> Failed to start winget."]))
  /\ exists w e,
       run nostart_env = Some (w, e)
       /\ existsb is_process_start (trace w) = true
       /\ status_label w = lit "Launch error".
Proof.
  split; [reflexivity|].
  split; [exact (launch_failure_reported nostart_env eq_refl)|].
  eval_run. split; reflexivity.
Defined.




(** The percentages of one download never go down. *)
Lemma percent_of_monotone (a b size : Z) :
  0 < size -> a <= b ->
  percent_of a urlretrieve_bs size <= percent_of b urlretrieve_bs size.
Proof.
  intros Hsize Hab. unfold percent_of, urlretrieve_bs.
  apply Z.quot_le_mono; [exact Hsize | nia].
Qed.

Lemma hook_percents_nondecreasing (size : Z) (blocks : list Z) : forall (k : Z),
  0 < size ->
  nondecreasing (map (fun n => percent_of n urlretrieve_bs size)
                     (k :: hook_calls blocks k)).
Proof.
  induction blocks as [|b rest IH]; intros k Hsize; [exact I|].
  cbn [hook_calls map nondecreasing]. split.
  - apply percent_of_monotone; [exact Hsize | lia].
  - apply (IH (k + 1) Hsize).
Qed.

Lemma progress_percents_nondecreasing (env : Env) :
  nondecreasing (progress_percents env).
Proof.
  unfold progress_percents. destruct (0 <? dl_size env) eqn:E; [|exact I].
  apply hook_percents_nondecreasing. apply Z.ltb_lt. exact E.
Qed.

Lemma progress_signals_percents (env : Env) :
  progress_signals env = map SigProgress (progress_percents env).
Proof.
  unfold progress_signals, progress_percents.
  destruct (0 <? dl_size env); [|reflexivity].
  rewrite map_map. reflexivity.
Qed.

Lemma percents_of_app (a b : list WorkerSignal) :
  percents_of (a ++ b) = percents_of a ++ percents_of b.
Proof.
  induction a as [|s a IH]; [reflexivity|].
  destruct s; cbn [app percents_of]; rewrite IH; reflexivity.
Qed.

Lemma percents_of_progress (l : list Z) : percents_of (map SigProgress l) = l.
Proof. induction l as [|x l IH]; [reflexivity|]. cbn [map percents_of]. rewrite IH. reflexivity. Qed.

(** The percentages the worker emits are those of the download, if it got
    as far as opening the URL. *)
Lemma worker_percents (env : Env) (field : option pystr) :
  percents_of (emitted (worker_events env field))
  = match field, dl_open_error env with
    | Some _, None => progress_percents env
    | _, _ => []
    end.
Proof.
  unfold worker_events. destruct field as [path|]; [|reflexivity].
  cbn [emitted percents_of]. rewrite emitted_app, percents_of_app.
  assert (Htail : percents_of
                    (emitted
                       match download_error env with
                       | Some msg => [EvEmit (SigFinished false (lit "Error: " ++ msg))]
                       | None =>
                           [EvEmit (SigLog (lit "Saved to " ++ path));
                            EvEmit (SigLog (lit "Installing App Installer package (winget)"
                                            ++ [8230%N]));
                            EvSubprocessRun (installer_args path)]
                           ++ install_events env
                       end) = []).
  { destruct (download_error env); [reflexivity|].
    unfold install_events. cbn [app emitted percents_of].
    destruct (installer env) as [msg|proc]; [reflexivity|].
    destruct (negb (returncode proc =? 0)); reflexivity. }
  rewrite Htail, app_nil_r. unfold download_events. cbn [emitted].
  destruct (dl_open_error env); [reflexivity|].
  rewrite emitted_map_emit, progress_signals_percents. apply percents_of_progress.
Qed.

(** The first half of C8 holds: whatever the window and the host, the
    percentages among the signals the worker queues never go down. *)
Lemma worker_progress_nondecreasing (env : Env) (w : WingetUpdater) :
  exists w' sigs,
    w7X8y9 env w = (w', Normal tt)
    /\ queue w' = queue w ++ map TSignal sigs
    /\ nondecreasing (percents_of sigs).
Proof.
  exists (perform (worker_events env (msix_path w)) w),
         (emitted (worker_events env (msix_path w))).
  split; [apply worker_run|]. split; [reflexivity|].
  rewrite worker_percents.
  destruct (msix_path w); [|exact I].
  destruct (dl_open_error env); [exact I|].
  apply progress_percents_nondecreasing.
Qed.

(** C8, the code at the failing input: a download of 10000 bytes that
    arrives in two blocks (8192 and 1808 bytes).  The hook is called with
    block numbers 0, 1 and 2, and the percentages delivered to the progress
    slot are 0, 81 and 163: the last one is above 100, and the amount it
    stands for (2 * 8192 bytes) is above the total. *)
Theorem progress_overshoots_total :
  dl_size sample_env = 10000
  /\ dl_blocks sample_env = [8192; 1808]
  /\ progress_percents sample_env = [0; 81; 163]
  /\ (exists w e, run sample_env = Some (w, e) /\ progress_values w = [0; 81; 163])
  /\ 100 < 163
  /\ dl_size sample_env < 2 * urlretrieve_bs.
Proof.
  split; [reflexivity|]. split; [reflexivity|]. split; [reflexivity|].
  split; [eexists; eexists; split; vm_compute; reflexivity|].
  split; reflexivity.
Qed.

(** C10.  Whatever the window and the host, [w7X8y9] returns normally; it
    queues log and progress signals and then exactly one [finished] signal,
    the last one.  When reading [msix_path], the download or the start of
    the installer raised, that signal is a failure carrying "Error: " and
    the text of the exception; a success signal means that nothing raised
    and the installer ended with code 0. *)
Theorem worker_reports_every_exception (env : Env) (w : WingetUpdater) :
  exists w' pre b m,
    w7X8y9 env w = (w', Normal tt)
    /\ queue w' = queue w ++ map TSignal (pre ++ [SigFinished b m])
    /\ existsb is_finished pre = false
    /\ (msix_path w = None ->
        b = false
        /\ m = lit "Error: " ++ lit "'WingetUpdater' object has no attribute 'msix_path'")
    /\ (forall exc,
          msix_path w <> None -> download_error env = Some exc ->
          b = false /\ m = lit "Error: " ++ exc)
    /\ (forall exc,
          msix_path w <> None -> download_error env = None ->
          installer env = SpawnRaised exc ->
          b = false /\ m = lit "Error: " ++ exc)
    /\ (b = true ->
        msix_path w <> None
        /\ download_error env = None
        /\ exists proc, installer env = Completed proc /\ returncode proc = 0).
Proof.
  destruct (worker_signals_shape env (msix_path w)) as (pre & Hshape & Hpass & _).
  exists (perform (worker_events env (msix_path w)) w), pre,
         (fst (worker_verdict env (msix_path w))),
         (snd (worker_verdict env (msix_path w))).
  split; [apply worker_run|].
  split; [cbn [queue perform]; rewrite Hshape; reflexivity|].
  split; [apply passive_not_finished; exact Hpass|].
  unfold worker_verdict.
  destruct (msix_path w) as [path|].
  - split; [discriminate|].
    destruct (download_error env) as [dmsg|].
    + split; [intros exc _ H; injection H as <-; split; reflexivity|].
      split; [intros exc _ H; discriminate H|]. cbn [fst]. discriminate.
    + split; [intros exc _ H; discriminate H|].
      destruct (installer env) as [imsg|proc].
      * split; [intros exc _ _ H; injection H as <-; split; reflexivity|].
        cbn [fst]. discriminate.
      * split; [intros exc _ _ H; discriminate H|].
        destruct (returncode proc =? 0) eqn:E; cbn [negb fst]; [|discriminate].
        intros _. split; [discriminate|]. split; [reflexivity|].
        exists proc. split; [reflexivity | apply Z.eqb_eq; exact E].
  - split; [intros _; split; reflexivity|].
    split; [intros exc H; exfalso; apply H; reflexivity|].
    split; [intros exc H; exfalso; apply H; reflexivity|].
    cbn [fst]. discriminate.
Qed.

(** * Further properties of the program *)

(** ** A rule for the event loop *)

Section LoopRule.

Variable env : Env.

(** To show [Q] of the window the loop ends with, give an invariant [I] of
    the turns of the loop that yields [Q] wherever the loop can stop. *)
Lemma exec_loop_rule (I Q : WingetUpdater -> Prop) :
  (forall w t q w',
      I w -> quit_code w = None -> queue w = t :: q ->
      dispatch env t (set_queue q w) = (w', Normal tt) -> I w') ->
  (forall w t q w' x,
      I w -> quit_code w = None -> queue w = t :: q ->
      dispatch env t (set_queue q w) = (w', Raised x) -> Q w') ->
  (forall w rc, I w -> quit_code w = Some rc -> Q w) ->
  (forall w, I w -> quit_code w = None -> queue w = [] -> Q w) ->
  forall fuel w w' e,
    I w -> exec_loop env fuel w = Some (w', e) -> Q w'.
Proof.
  intros Hstep Hraise Hquit Hidle.
  induction fuel as [|n IH]; intros w w' e HI H; [discriminate|].
  cbn [exec_loop] in H.
  destruct (quit_code w) as [rc|] eqn:Eq.
  { injection H as <- _. exact (Hquit w rc HI Eq). }
  destruct (queue w) as [|t q] eqn:Equeue.
  { injection H as <- _. exact (Hidle w HI Eq Equeue). }
  destruct (dispatch env t (set_queue q w)) as [w1 [[]|x]] eqn:Ed.
  - apply (IH w1 w' e); [|exact H]. exact (Hstep w t q w1 HI Eq Equeue Ed).
  - assert (HQ : Q w1) by exact (Hraise w t q w1 x HI Eq Equeue Ed).
    destruct x; injection H as <- _; exact HQ.
Qed.

End LoopRule.

(** ** What each slot does to the window *)

Ltac window_fields :=
  cbn [trace queue quit_code status_label log_view progress_visible progress_values
       progress_maximum msix_path set_visible set_status set_maximum set_value
       append_log record enqueue set_queue set_quit_code set_msix_path perform].

Ltac log_grows :=
  first [ eexists; reflexivity
        | exists []; rewrite app_nil_r; reflexivity ].

Ltac slot_done :=
  eexists; (split; [reflexivity|]); window_fields;
  rewrite ?emitted_app; cbn [emitted];
  rewrite ?app_nil_r, <- ?app_assoc;
  repeat split; try reflexivity; try assumption; log_grows.

Section SlotFacts.

Variable env : Env.

(** The slots other than [q1R2s3] return normally; this is all they do to
    the queue, the progress bar, the loop and the log. *)
Lemma dispatch_other (t : Task) (w : WingetUpdater) :
  is_main t = false ->
  exists w',
    dispatch env t w = (w', Normal tt)
    /\ queue w' = queue w ++ spawned env t
    /\ progress_visible w' = visible_after env t (progress_visible w)
    /\ quit_code w' = match t with
                      | TSignal (SigFinished false _) => Some 0
                      | _ => quit_code w
                      end
    /\ progress_values w' = progress_values w ++ pending_percents [t]
    /\ emitted (trace w') = emitted (trace w)
    /\ exists s, log_view w' = log_view w ++ s.
Proof.
  intros Hmain.
  destruct t as [| |[msg|p|[] m]|text|c s]; try discriminate Hmain;
    cbn [dispatch spawned visible_after pending_percents].
  - unfold c3D4e5, process_start, waitForStarted.
    destruct (wait_started env); slot_done.
  - slot_done.
  - unfold r8S9t0, bind, gets.
    destruct (progress_visible w) eqn:Ev; cbn [negb]; slot_done.
  - slot_done.
  - slot_done.
  - slot_done.
  - unfold i9J0k1. destruct (is_NormalExit s && (c =? 0)); slot_done.
Qed.

(** All that [q1R2s3] does to the queue, the progress bar, the loop and the
    log. *)
Lemma q1R2s3_shape (w : WingetUpdater) :
  exists w' r,
    q1R2s3 env w = (w', r)
    /\ r = (if platform_supported env && negb (elevated env)
            then Raised (SystemExit 0) else Normal tt)
    /\ queue w' = queue w ++ main_spawned env
    /\ progress_visible w' = (if bootstrap_started env then true else progress_visible w)
    /\ quit_code w' = (if platform_supported env then quit_code w else Some 0)
    /\ progress_values w' = progress_values w
    /\ emitted (trace w')
       = emitted (trace w)
         ++ (if bootstrap_started env
             then emitted (worker_events env (Some (temp_path env)))
             else [])
    /\ exists s, log_view w' = log_view w ++ s.
Proof.
  unfold q1R2s3, main_spawned, bootstrap_started, platform_supported.
  destruct (pystr_eqb (platform_system env) (lit "Windows")); cbn [negb andb];
    [|eexists; slot_done].
  destruct (pystr_eqb (platform_release env) (lit "10")
            || pystr_eqb (platform_release env) (lit "11")); cbn [negb andb];
    [|eexists; slot_done].
  unfold bind at 1. unfold a7B2cD3, elevated.
  unfold bind at 1. unfold effect at 1. unfold modify at 1. cbv beta iota.
  unfold ret at 1. cbv beta iota.
  destruct (match IsUserAnAdmin env with
            | Some r => negb (r =? 0)
            | None => false
            end); cbn [negb andb orb];
    [|eexists; slot_done].
  unfold bind at 1. unfold ret at 1. cbv beta iota.
  unfold bind at 1. unfold l2M3n4 at 1. unfold modify at 1. cbv beta iota.
  unfold bind at 1. unfold i5J6kL7, winget_present.
  unfold bind at 1. unfold effect at 1. unfold modify at 1. cbv beta iota.
  unfold ret at 1. cbv beta iota.
  destruct (which_winget env) as [exe|]; cbn [negb].
  - eexists; slot_done.
  - unfold bind at 1. unfold l2M3n4 at 1. unfold modify at 1. cbv beta iota.
    unfold t4U5v6, thread_start.
    repeat (unfold bind at 1;
            first [unfold modify at 1 | unfold effect at 1; unfold modify at 1];
            cbv beta iota).
    rewrite worker_run. cbn [fst msix_path perform set_msix_path record].
    fold (temp_path env).
    eexists; eexists; (split; [reflexivity|]); window_fields.
    rewrite !emitted_app. cbn [emitted]. rewrite ?app_nil_r, <- ?app_assoc.
    repeat split; try reflexivity. log_grows.
Qed.

End SlotFacts.

(** ** The progress bar at the end of a run *)

Section BarFacts.

Variable env : Env.

Lemma closed_app_last (q : list Task) (t : Task) : closed (q ++ [t]) = is_closer t.
Proof. unfold closed. rewrite rev_app_distr. reflexivity. Qed.

Lemma closed_tail (t : Task) (q : list Task) :
  closed (t :: q) = true -> q <> [] -> closed q = true.
Proof.
  unfold closed. cbn [rev]. intros H Hq.
  destruct (rev q) as [|x r] eqn:E.
  - exfalso. apply Hq. apply rev_nil_iff. exact E.
  - exact H.
Qed.

Lemma spawned_closed (t : Task) (q : list Task) :
  closed (t :: q) = true -> closed (q ++ spawned env t) = true.
Proof.
  intros H.
  assert (Hq : closed q = true).
  { destruct q as [|x q]; [reflexivity|]. apply (closed_tail t); [exact H | discriminate]. }
  destruct t as [| |[msg|p|[] m]|text|c s]; cbn [spawned]; rewrite ?app_nil_r;
    try exact Hq.
  - destruct (wait_started env); [|rewrite app_nil_r; exact Hq].
    rewrite app_assoc. apply closed_app_last.
  - apply closed_app_last.
Qed.

Lemma spawned_no_main (t : Task) : no_main (spawned env t) = true.
Proof.
  destruct t as [| |[msg|p|[] m]|text|c s]; try reflexivity.
  cbn [spawned]. destruct (wait_started env); [|reflexivity].
  unfold no_main. rewrite forallb_app. cbn [forallb is_main negb andb].
  rewrite andb_true_r.
  induction (proc_chunks env) as [|x l IH]; [reflexivity | exact IH].
Qed.

Lemma main_spawned_shape :
  no_main (main_spawned env) = true
  /\ closed (main_spawned env) = true
  /\ (bootstrap_started env = true -> main_spawned env <> []).
Proof.
  unfold main_spawned, bootstrap_started.
  destruct (platform_supported env && elevated env); cbn [andb];
    [|repeat split; discriminate].
  destruct (winget_present env); cbn [negb]; [repeat split; discriminate|].
  destruct (worker_signals_shape env (Some (temp_path env))) as (pre & Hshape & Hpass & _).
  rewrite Hshape, map_app. cbn [map]. split; [|split].
  - unfold no_main. rewrite forallb_app. cbn [forallb is_main negb andb].
    rewrite andb_true_r.
    clear Hshape Hpass. induction pre as [|x l IH]; [reflexivity | exact IH].
  - apply closed_app_last.
  - intros _ H. apply app_eq_nil in H as [_ H]. discriminate H.
Qed.

(** The turns of the loop keep [bar_invariant]. *)
Lemma bar_invariant_step (w w' : WingetUpdater) (t : Task) (q : list Task) :
  bar_invariant w -> quit_code w = None -> queue w = t :: q ->
  dispatch env t (set_queue q w) = (w', Normal tt) ->
  bar_invariant w'.
Proof.
  intros [[Hq Hv]|(Hnm & Hcl & Hshow)] Hquit Hqueue Hd.
  - rewrite Hq in Hqueue. injection Hqueue as <- <-. cbn [dispatch] in Hd.
    destruct (q1R2s3_shape env (set_queue [] w))
      as (w1 & r & R & _ & Q1 & V1 & C1 & _).
    rewrite R in Hd. injection Hd as <- _.
    cbn [queue progress_visible quit_code set_queue app] in Q1, V1, C1.
    destruct main_spawned_shape as (M1 & M2 & M3).
    right. rewrite Q1. split; [exact M1|]. split; [exact M2|].
    rewrite V1, C1, Hv. unfold bootstrap_started in *.
    destruct (platform_supported env); cbn [andb] in *; [|discriminate].
    destruct (elevated env && negb (winget_present env)); [|discriminate].
    intros _. split; [exact Hquit | apply M3; reflexivity].
  - rewrite Hqueue in Hnm, Hcl. unfold no_main in Hnm. cbn [forallb] in Hnm.
    apply andb_true_iff in Hnm as [Ht Hnq]. apply negb_true_iff in Ht.
    destruct (dispatch_other env t (set_queue q w) Ht)
      as (w1 & R & Q1 & V1 & C1 & _).
    rewrite R in Hd. injection Hd as <-.
    cbn [queue progress_visible quit_code set_queue] in Q1, V1, C1.
    right. rewrite Q1. split; [|split].
    + unfold no_main. rewrite forallb_app. fold (no_main q). fold (no_main (spawned env t)).
      rewrite spawned_no_main. unfold no_main. rewrite Hnq. reflexivity.
    + apply spawned_closed. exact Hcl.
    + rewrite V1, C1. intros Hvis.
      destruct t as [| |[msg|p|[] m]|text|c s]; try discriminate Ht;
        cbn [visible_after spawned] in *; try discriminate Hvis.
      * rewrite Hvis. split; [exact Hquit|].
        intros H. apply app_eq_nil in H as [_ H].
        apply app_eq_nil in H as [_ H]. discriminate H.
      * split; [exact Hquit|]. rewrite app_nil_r. intros ->. discriminate Hcl.
      * split; [exact Hquit|]. rewrite app_nil_r. intros ->. discriminate Hcl.
      * split; [exact Hquit|]. rewrite app_nil_r. intros ->. discriminate Hcl.
Qed.

(** Wherever the loop stops, [bar_invariant] means a hidden bar. *)
Lemma bar_hidden_at_end (fuel : nat) (w w' : WingetUpdater) (e : LoopEnd) :
  bar_invariant w ->
  exec_loop env fuel w = Some (w', e) ->
  progress_visible w' = false.
Proof.
  apply (exec_loop_rule env bar_invariant (fun w => progress_visible w = false)).
  - intros w0 t q w1. apply bar_invariant_step.
  - intros w0 t q w1 x [[Hq Hv]|(Hnm & _)] Hquit Hqueue Hd.
    + rewrite Hq in Hqueue. injection Hqueue as <- <-. cbn [dispatch] in Hd.
      destruct (q1R2s3_shape env (set_queue [] w0))
        as (w2 & r & R & Hr & _ & V1 & _).
      rewrite R in Hd. injection Hd as <- ->.
      cbn [progress_visible set_queue] in V1. rewrite V1, Hv.
      unfold bootstrap_started.
      destruct (platform_supported env && negb (elevated env)) eqn:E; [|discriminate Hr].
      apply andb_true_iff in E as [-> E]. apply negb_true_iff in E. rewrite E.
      reflexivity.
    + rewrite Hqueue in Hnm. unfold no_main in Hnm. cbn [forallb] in Hnm.
      apply andb_true_iff in Hnm as [Ht _]. apply negb_true_iff in Ht.
      destruct (dispatch_other env t (set_queue q w0) Ht) as (w2 & R & _).
      rewrite R in Hd. discriminate Hd.
  - intros w0 rc [[_ Hv]|(_ & _ & Hshow)] Hquit; [exact Hv|].
    destruct (progress_visible w0); [|reflexivity].
    destruct (Hshow eq_refl) as [H _]. congruence.
  - intros w0 [[Hq _]|(_ & _ & Hshow)] _ Hqueue; [congruence|].
    destruct (progress_visible w0); [|reflexivity].
    destruct (Hshow eq_refl) as [_ H]. contradiction.
Qed.

End BarFacts.

(** X9.  No run ends with the progress bar still showing: whether the loop
    stops because of [quit()], because nothing is left to do, or because the
    process leaves for the elevated one, the bar is hidden. *)
Theorem run_ends_with_hidden_bar (env : Env) :
  exists w e, run env = Some (w, e) /\ progress_visible w = false.
Proof.
  destruct (run_closed_form env) as (w & R & _).
  exists w, (run_end env). split; [exact R|].
  apply (bar_hidden_at_end env (run_fuel env) init_window w (run_end env)); [|exact R].
  left. split; reflexivity.
Qed.

(** ** The log only grows *)

Lemma dispatch_log_grows (env : Env) (t : Task) (w w' : WingetUpdater) (r : Res unit) :
  dispatch env t w = (w', r) -> exists s, log_view w' = log_view w ++ s.
Proof.
  intros Hd. destruct (is_main t) eqn:Et.
  - destruct t; try discriminate Et. cbn [dispatch] in Hd.
    destruct (q1R2s3_shape env w) as (w1 & r1 & R & _ & _ & _ & _ & _ & _ & L).
    rewrite R in Hd. injection Hd as <- _. exact L.
  - destruct (dispatch_other env t w Et) as (w1 & R & _ & _ & _ & _ & _ & L).
    rewrite R in Hd. injection Hd as <- _. exact L.
Qed.

(** X11.  The log is append-only: from whatever window the event loop is
    started, the log it ends with begins with the log it started with; no
    slot removes or rewrites a line. *)
Theorem log_is_append_only (env : Env) (fuel : nat) (w w' : WingetUpdater) (e : LoopEnd) :
  exec_loop env fuel w = Some (w', e) ->
  exists s, log_view w' = log_view w ++ s.
Proof.
  apply (exec_loop_rule env (fun x => exists s, log_view x = log_view w ++ s)
           (fun x => exists s, log_view x = log_view w ++ s)).
  - intros w0 t q w1 [s Hs] _ _ Hd.
    destruct (dispatch_log_grows env t _ _ _ Hd) as [s1 H1].
    cbn [log_view set_queue] in H1. exists (s ++ s1).
    rewrite H1, Hs, app_assoc. reflexivity.
  - intros w0 t q w1 x [s Hs] _ _ Hd.
    destruct (dispatch_log_grows env t _ _ _ Hd) as [s1 H1].
    cbn [log_view set_queue] in H1. exists (s ++ s1).
    rewrite H1, Hs, app_assoc. reflexivity.
  - intros w0 rc H _. exact H.
  - intros w0 H _ _. exact H.
  - exists []. symmetry. apply app_nil_r.
Qed.

Lemma log_is_append_only_witness :
  exists w' e,
    exec_loop nostart_env 5 (append_log (lit "an earlier line") init_window) = Some (w', e)
    /\ exists s,
         log_view w' = log_view (append_log (lit "an earlier line") init_window) ++ s.
Proof.
  eexists. eexists. split; [vm_compute; reflexivity|].
  apply (log_is_append_only nostart_env 5
           (append_log (lit "an earlier line") init_window) _ (Returned 0)).
  vm_compute. reflexivity.
Defined.

(** ** The percentages on their way to the bar *)

Section ProgressFacts.

Variable env : Env.

Lemma pending_percents_app (a b : list Task) :
  pending_percents (a ++ b) = pending_percents a ++ pending_percents b.
Proof.
  induction a as [|t a IH]; [reflexivity|].
  destruct t as [| |[msg|p|bb m]|text|c s]; cbn [app pending_percents];
    rewrite IH; reflexivity.
Qed.

Lemma pending_percents_signals (sigs : list WorkerSignal) :
  pending_percents (map TSignal sigs) = percents_of sigs.
Proof.
  induction sigs as [|s l IH]; [reflexivity|].
  destruct s; cbn [map pending_percents percents_of]; rewrite IH; reflexivity.
Qed.

Lemma spawned_no_percents (t : Task) : pending_percents (spawned env t) = [].
Proof.
  destruct t as [| |[msg|p|[] m]|text|c s]; try reflexivity.
  cbn [spawned]. destruct (wait_started env); [|reflexivity].
  rewrite pending_percents_app. cbn [pending_percents]. rewrite app_nil_r.
  induction (proc_chunks env) as [|x l IH]; [reflexivity | exact IH].
Qed.

Lemma main_spawned_percents :
  pending_percents (main_spawned env)
  = if bootstrap_started env
    then percents_of (emitted (worker_events env (Some (temp_path env))))
    else [].
Proof.
  unfold main_spawned, bootstrap_started.
  destruct (platform_supported env && elevated env); [|reflexivity].
  destruct (winget_present env); [reflexivity|].
  apply pending_percents_signals.
Qed.

Lemma progress_invariant_main (w w' : WingetUpdater) (r : Res unit) :
  progress_invariant w -> quit_code w = None -> queue w = [TQ1R2s3] ->
  dispatch env TQ1R2s3 (set_queue [] w) = (w', r) ->
  match r with
  | Normal _ => progress_invariant w'
  | Raised _ => progress_values w' = percents_of (emitted (trace w'))
  end.
Proof.
  intros [Heq _] Hquit Hqueue Hd. cbn [dispatch] in Hd.
  rewrite Hqueue in Heq. cbn [pending_percents] in Heq. rewrite app_nil_r in Heq.
  destruct (q1R2s3_shape env (set_queue [] w))
    as (w1 & r1 & R & Hr & Q1 & _ & C1 & P1 & E1 & _).
  rewrite R in Hd. injection Hd as <- <-.
  cbn [queue quit_code progress_values trace set_queue app] in Q1, C1, P1, E1.
  assert (Hsum : progress_values w1 ++ pending_percents (queue w1)
                 = percents_of (emitted (trace w1))).
  { rewrite P1, Q1, E1, percents_of_app, main_spawned_percents, Heq.
    destruct (bootstrap_started env); reflexivity. }
  unfold bootstrap_started, main_spawned in *.
  destruct (platform_supported env) eqn:Es; cbn [andb] in *.
  2: { subst r1. split; [exact Hsum|]. right. left. rewrite Q1. split; reflexivity. }
  destruct (elevated env) eqn:Ee; cbn [andb negb] in *.
  2: { subst r1. rewrite Q1 in Hsum. cbn [pending_percents] in Hsum.
       rewrite app_nil_r in Hsum. exact Hsum. }
  subst r1. split; [exact Hsum|].
  destruct (winget_present env).
  - right. left. rewrite Q1. split; reflexivity.
  - right. right. split; [congruence|].
    destruct (worker_signals_shape env (Some (temp_path env))) as (pre & Hshape & Hpass & _).
    exists pre, (fst (worker_verdict env (Some (temp_path env)))),
           (snd (worker_verdict env (Some (temp_path env)))).
    rewrite Q1, Hshape, map_app. split; [reflexivity | exact Hpass].
Qed.

Lemma no_main_head (t : Task) (q : list Task) :
  no_main (t :: q) = true -> is_main t = false /\ no_main q = true.
Proof.
  unfold no_main. cbn [forallb]. intros H.
  apply andb_true_iff in H as [Ht Hq]. apply negb_true_iff in Ht. split; assumption.
Qed.

Lemma progress_invariant_other (w w' : WingetUpdater) (t : Task) (q : list Task) :
  progress_invariant w -> quit_code w = None -> queue w = t :: q ->
  is_main t = false ->
  dispatch env t (set_queue q w) = (w', Normal tt) ->
  progress_invariant w'.
Proof.
  intros [Heq Hform] Hquit Hqueue Ht Hd.
  destruct (dispatch_other env t (set_queue q w) Ht)
    as (w1 & R & Q1 & _ & C1 & P1 & E1 & _).
  rewrite R in Hd. injection Hd as <-.
  cbn [queue quit_code progress_values trace set_queue] in Q1, C1, P1, E1.
  rewrite Hqueue in Heq.
  change (t :: q) with ([t] ++ q) in Heq. rewrite pending_percents_app in Heq.
  split.
  - rewrite P1, Q1, E1, pending_percents_app, spawned_no_percents, app_nil_r.
    rewrite <- app_assoc. exact Heq.
  - destruct Hform as [Hm|[(Hnm & Hp)|(_ & sigs & b & m & Hq & Hpass)]].
    + rewrite Hm in Hqueue. injection Hqueue as <- _. discriminate Ht.
    + rewrite Hqueue in Hnm, Hp. apply no_main_head in Hnm as [_ Hnq].
      change (t :: q) with ([t] ++ q) in Hp. rewrite pending_percents_app in Hp.
      apply app_eq_nil in Hp as [_ Hpq].
      right. left. rewrite Q1. split.
      * unfold no_main. rewrite forallb_app. fold (no_main q).
        fold (no_main (spawned env t)). rewrite Hnq, spawned_no_main. reflexivity.
      * rewrite pending_percents_app, Hpq, spawned_no_percents. reflexivity.
    + rewrite Hqueue in Hq. destruct sigs as [|s sigs]; cbn [map app] in Hq.
      * injection Hq as -> ->. right. left. rewrite Q1. cbn [app]. split.
        -- apply spawned_no_main.
        -- apply spawned_no_percents.
      * injection Hq as -> ->. cbn [map forallb] in Hpass.
        apply andb_true_iff in Hpass as [Hs Hpass].
        right. right. split.
        -- rewrite C1. destruct s; (discriminate Hs || exact Hquit).
        -- exists sigs, b, m. rewrite Q1. split; [|exact Hpass].
           destruct s; try discriminate Hs; cbn [spawned]; apply app_nil_r.
Qed.

(** Wherever the loop stops, the bar got exactly the percentages that were
    emitted, in their order. *)
Lemma progress_delivered (fuel : nat) (w w' : WingetUpdater) (e : LoopEnd) :
  progress_invariant w ->
  exec_loop env fuel w = Some (w', e) ->
  progress_values w' = percents_of (emitted (trace w')).
Proof.
  apply (exec_loop_rule env progress_invariant
           (fun x => progress_values x = percents_of (emitted (trace x)))).
  - intros w0 t q w1 HI Hquit Hqueue Hd.
    destruct (is_main t) eqn:Et.
    + destruct t; try discriminate Et.
      destruct HI as [Heq Hform].
      assert (Hq : q = []).
      { destruct Hform as [Hm|[(Hnm & _)|(_ & sigs & b & m & Hq & _)]].
        - rewrite Hm in Hqueue. injection Hqueue as <-. reflexivity.
        - rewrite Hqueue in Hnm. discriminate Hnm.
        - rewrite Hqueue in Hq. destruct sigs; discriminate Hq. }
      subst q.
      exact (progress_invariant_main w0 w1 (Normal tt) (conj Heq Hform) Hquit Hqueue Hd).
    + exact (progress_invariant_other w0 w1 t q HI Hquit Hqueue Et Hd).
  - intros w0 t q w1 x HI Hquit Hqueue Hd.
    destruct (is_main t) eqn:Et.
    + destruct t; try discriminate Et.
      destruct HI as [Heq Hform].
      assert (Hq : q = []).
      { destruct Hform as [Hm|[(Hnm & _)|(_ & sigs & b & m & Hq & _)]].
        - rewrite Hm in Hqueue. injection Hqueue as <-. reflexivity.
        - rewrite Hqueue in Hnm. discriminate Hnm.
        - rewrite Hqueue in Hq. destruct sigs; discriminate Hq. }
      subst q.
      exact (progress_invariant_main w0 w1 (Raised x) (conj Heq Hform) Hquit Hqueue Hd).
    + destruct (dispatch_other env t (set_queue q w0) Et) as (w2 & R & _).
      rewrite R in Hd. discriminate Hd.
  - intros w0 rc [Heq Hform] Hquit.
    destruct Hform as [Hm|[(_ & Hp)|(Hn & _)]].
    + rewrite Hm in Heq. cbn [pending_percents] in Heq. rewrite app_nil_r in Heq. exact Heq.
    + rewrite Hp, app_nil_r in Heq. exact Heq.
    + congruence.
  - intros w0 [Heq _] _ Hqueue.
    rewrite Hqueue in Heq. cbn [pending_percents] in Heq. rewrite app_nil_r in Heq.
    exact Heq.
Qed.

Lemma run_progress_delivered (w : WingetUpdater) (e : LoopEnd) :
  run env = Some (w, e) ->
  progress_values w = percents_of (emitted (trace w)).
Proof.
  apply progress_delivered. split; [reflexivity | left; reflexivity].
Qed.

(** The percentages emitted in a whole run are those of the download, if
    the run got as far as opening the URL. *)
Lemma run_emitted_percents :
  percents_of (emitted (run_trace env))
  = if bootstrap_started env
    then match dl_open_error env with
         | None => progress_percents env
         | Some _ => []
         end
    else [].
Proof.
  unfold run_trace, bootstrap_started, platform_supported.
  destruct (pystr_eqb (platform_system env) (lit "Windows")); [|reflexivity].
  destruct (pystr_eqb (platform_release env) (lit "10")
            || pystr_eqb (platform_release env) (lit "11")); [|reflexivity].
  destruct (elevated env); [|reflexivity].
  cbn [negb andb emitted]. unfold upgrade_events, bootstrap_events.
  destruct (winget_present env); cbn [negb emitted].
  - destruct (wait_started env && negb (upgrade_ok env)); reflexivity.
  - rewrite emitted_app, percents_of_app, worker_percents. unfold upgrade_events.
    destruct (bootstrap_ok env);
      [destruct (wait_started env && negb (upgrade_ok env))|];
      cbn [emitted percents_of app fatal_events]; apply app_nil_r.
Qed.

End ProgressFacts.


(** The values the bar gets in a whole run, by the closed form. *)
Lemma run_progress_values (env : Env) :
  exists w e,
    run env = Some (w, e)
    /\ progress_values w = percents_of (emitted (trace w))
    /\ progress_values w
       = if bootstrap_started env
         then match dl_open_error env with
              | None => progress_percents env
              | Some _ => []
              end
         else [].
Proof.
  destruct (run_closed_form env) as (w & R & T & _).
  exists w, (run_end env). split; [exact R|].
  pose proof (run_progress_delivered env w _ R) as H.
  split; [exact H|]. rewrite H, T. apply run_emitted_percents.
Qed.




(** X7.  When the server tells no length (or a length of zero), the hook
    emits nothing: [progress.setValue] is never called in the whole run,
    however many blocks arrive. *)
Theorem unknown_length_sets_no_value (env : Env) :
  dl_size env <= 0 ->
  exists w e, run env = Some (w, e) /\ progress_values w = [].
Proof.
  intros Hsize.
  destruct (run_progress_values env) as (w & e & R & _ & H).
  exists w, e. split; [exact R|]. rewrite H.
  unfold progress_percents.
  assert (E : (0 <? dl_size env) = false) by (apply Z.ltb_ge; exact Hsize).
  rewrite E. destruct (bootstrap_started env); [|reflexivity].
  destruct (dl_open_error env); reflexivity.
Qed.

Lemma unknown_length_sets_no_value_witness :
  dl_size nolength_env <= 0
  /\ (exists w e, run nolength_env = Some (w, e) /\ progress_values w = [])
  /\ exists w e,
       run nolength_env = Some (w, e)
       /\ In (EvUrlretrieve WINGET_MSIX_URL (temp_path nolength_env)) (trace w).
Proof.
  assert (H : dl_size nolength_env <= 0) by discriminate.
  split; [exact H|]. split; [exact (unknown_length_sets_no_value nolength_env H)|].
  eval_run. find_in.
Defined.

(** ** The range of the percentages *)

Lemma hook_calls_bounds (blocks : list Z) : forall (k x : Z),
  In x (hook_calls blocks k) -> k < x <= k + Z.of_nat (List.length blocks).
Proof.
  induction blocks as [|b rest IH]; intros k x Hin; [contradiction|].
  cbn [hook_calls In List.length] in Hin |- *. destruct Hin as [<-|Hin].
  - lia.
  - apply IH in Hin. lia.
Qed.

Lemma percent_of_range (k n size : Z) :
  0 <= k <= n ->
  100 * urlretrieve_bs <= size ->
  (n - 1) * urlretrieve_bs < size ->
  0 <= percent_of k urlretrieve_bs size <= 100.
Proof.
  unfold percent_of, urlretrieve_bs. intros Hk Hbig Hlast.
  split.
  - apply Z.quot_pos; lia.
  - assert (H : Z.quot (k * 8192 * 100) size < 101).
    { apply Z.quot_lt_upper_bound; lia. }
    lia.
Qed.

(** X8.  For a package of at least 819200 bytes whose last block starts
    before the end of the body (as it does when the blocks before it are
    full), every value given to the bar lies between 0 and 100: the
    overshoot of the last block stays below one percent. *)
Theorem large_download_stays_in_range (env : Env) :
  100 * urlretrieve_bs <= dl_size env ->
  (Z.of_nat (List.length (dl_blocks env)) - 1) * urlretrieve_bs < dl_size env ->
  exists w e,
    run env = Some (w, e)
    /\ Forall (fun p => 0 <= p <= 100) (progress_values w).
Proof.
  intros Hbig Hlast.
  destruct (run_progress_values env) as (w & e & R & _ & H).
  exists w, e. split; [exact R|]. rewrite H.
  destruct (bootstrap_started env); [|constructor].
  destruct (dl_open_error env); [constructor|].
  unfold progress_percents. destruct (0 <? dl_size env); [|constructor].
  apply Forall_forall. intros p Hp. apply in_map_iff in Hp as (k & <- & Hk).
  apply percent_of_range with (n := Z.of_nat (List.length (dl_blocks env)));
    [|exact Hbig | exact Hlast].
  destruct Hk as [<-|Hk]; [lia|].
  apply hook_calls_bounds in Hk. lia.
Qed.

Lemma large_download_stays_in_range_witness :
  100 * urlretrieve_bs <= dl_size megabyte_env
  /\ (Z.of_nat (List.length (dl_blocks megabyte_env)) - 1) * urlretrieve_bs
     < dl_size megabyte_env
  /\ (exists w e,
        run megabyte_env = Some (w, e)
        /\ Forall (fun p => 0 <= p <= 100) (progress_values w))
  /\ exists w e,
       run megabyte_env = Some (w, e)
       /\ List.length (progress_values w) = 124%nat
       /\ last (progress_values w) 0 = 100.
Proof.
  assert (H1 : 100 * urlretrieve_bs <= dl_size megabyte_env) by discriminate.
  assert (H2 : (Z.of_nat (List.length (dl_blocks megabyte_env)) - 1) * urlretrieve_bs
               < dl_size megabyte_env) by reflexivity.
  split; [exact H1|]. split; [exact H2|].
  split; [exact (large_download_stays_in_range megabyte_env H1 H2)|].
  eval_run. split; vm_compute; reflexivity.
Defined.

(** ** The effects of a whole run, sorted by kind *)

Lemma filter_none {A} (P : A -> bool) (l : list A) :
  existsb P l = false -> filter P l = [].
Proof.
  induction l as [|a l IH]; [reflexivity|].
  cbn [existsb filter]. intros H. apply orb_false_iff in H as [Ha Hl].
  rewrite Ha. exact (IH Hl).
Qed.

Lemma worker_events_filter (env : Env) (field : option pystr) (P : Event -> bool) :
  (forall e, is_worker_event e = true -> P e = false) ->
  filter P (worker_events env field) = [].
Proof. intros HP. apply filter_none. apply worker_events_exclude. exact HP. Qed.

Lemma worker_not_upgrade (e : Event) :
  is_worker_event e = true -> is_upgrade_operation e = false.
Proof. destruct e; (discriminate || reflexivity). Qed.

Lemma worker_not_quit (e : Event) : is_worker_event e = true -> is_quit e = false.
Proof. destruct e; (discriminate || reflexivity). Qed.

Lemma worker_not_critical (e : Event) : is_worker_event e = true -> is_critical e = false.
Proof. destruct e; (discriminate || reflexivity). Qed.

Lemma elevated_iff (env : Env) :
  elevated env = true <-> exists r, IsUserAnAdmin env = Some r /\ r <> 0.
Proof.
  unfold elevated. destruct (IsUserAnAdmin env) as [r|].
  - rewrite negb_true_iff, Z.eqb_neq. split.
    + intros H. exists r. split; [reflexivity | exact H].
    + intros (r' & H & Hr). injection H as <-. exact Hr.
  - split; [discriminate | intros (r & H & _); discriminate H].
Qed.

(** The download and the installer among the effects of the worker. *)
Lemma worker_bootstrap_operations (env : Env) (path : pystr) :
  filter is_bootstrap_operation (worker_events env (Some path))
  = EvUrlretrieve WINGET_MSIX_URL path
    :: match download_error env with
       | Some _ => []
       | None => [EvSubprocessRun (installer_args path)]
       end.
Proof.
  assert (Hmap : forall sigs, filter is_bootstrap_operation (map EvEmit sigs) = []).
  { induction sigs as [|x l IH]; [reflexivity | exact IH]. }
  unfold worker_events. cbn [filter is_bootstrap_operation].
  rewrite filter_app. unfold download_events. cbn [filter is_bootstrap_operation].
  assert (Hd : filter is_bootstrap_operation
                 match dl_open_error env with
                 | Some _ => []
                 | None => map EvEmit (progress_signals env)
                 end = []).
  { destruct (dl_open_error env); [reflexivity | apply Hmap]. }
  rewrite Hd. cbn [app]. f_equal.
  destruct (download_error env); [reflexivity|].
  cbn [app filter is_bootstrap_operation]. f_equal.
  unfold install_events. destruct (installer env) as [msg|proc]; [reflexivity|].
  destruct (negb (returncode proc =? 0)); reflexivity.
Qed.

(** X1.  On Windows 10 or 11, when the privilege query answers no or
    raises, the run asks once for elevation and does nothing else: no probe,
    no download, no process, no failure report; the process leaves with code
    0 and the run reaches neither terminal state. *)
Theorem unelevated_run_only_requests_elevation (env : Env) :
  platform_system env = lit "Windows" ->
  platform_release env = lit "10" \/ platform_release env = lit "11" ->
  IsUserAnAdmin env = None \/ IsUserAnAdmin env = Some 0 ->
  exists w,
    run env = Some (w, Exited 0)
    /\ trace w = [EvSingleShot 0 TQ1R2s3; EvIsUserAnAdmin;
                  EvShellExecuteW (lit "runas") (sys_executable env)
                    (join_space (map quoted (sys_argv env))) 1]
    /\ terminal_state w = None.
Proof.
  intros Hsys Hrel Hadmin.
  assert (Hs : platform_supported env = true).
  { apply platform_supported_iff. split; assumption. }
  assert (He : elevated env = false).
  { unfold elevated. destruct Hadmin as [-> | ->]; reflexivity. }
  destruct (run_closed_form env) as (w & R & T & S & _).
  unfold run_end in R. unfold run_status, upgrade_launched in S.
  rewrite Hs, He in R, S. cbn [andb negb] in R, S.
  unfold run_trace in T. unfold platform_supported in Hs.
  apply andb_true_iff in Hs as [Hs1 Hs2]. rewrite Hs1, Hs2, He in T. cbn [negb] in T.
  exists w. split; [exact R|]. split; [exact T|].
  unfold terminal_state. rewrite T, S. reflexivity.
Qed.

Lemma unelevated_run_only_requests_elevation_witness :
  platform_system noquery_env = lit "Windows"
  /\ (platform_release noquery_env = lit "10" \/ platform_release noquery_env = lit "11")
  /\ (IsUserAnAdmin noquery_env = None \/ IsUserAnAdmin noquery_env = Some 0)
  /\ exists w,
       run noquery_env = Some (w, Exited 0)
       /\ trace w = [EvSingleShot 0 TQ1R2s3; EvIsUserAnAdmin;
                     EvShellExecuteW (lit "runas") (sys_executable noquery_env)
                       (join_space (map quoted (sys_argv noquery_env))) 1]
       /\ terminal_state w = None.
Proof.
  split; [reflexivity|]. split; [right; reflexivity|]. split; [left; reflexivity|].
  exact (unelevated_run_only_requests_elevation noquery_env eq_refl
           (or_intror eq_refl) (or_introl eq_refl)).
Defined.

(** X10.  When the upgrade process started, the log ends with the banner of
    the upgrade, then the chunks of its output in the order they became
    readable, each without its trailing whitespace, then the closing line;
    nothing comes in between. *)
Theorem upgrade_output_logged_in_order (env : Env) :
  wait_started env = true ->
  exists w e,
    run env = Some (w, e)
    /\ (existsb is_process_start (trace w) = true ->
        exists pre,
          log_view w
          = pre
            ++ [nl ++ lit "--- Starting update of all packages ---"]
            ++ map rstrip (proc_chunks env)
            ++ [if is_NormalExit (proc_exit_status env) && (proc_exit_code env =? 0)
                then nl ++ lit "--- Update completed without errors ---"
                else nl ++ lit "--- Finished with error (code="
                     ++ str_of_int (proc_exit_code env) ++ lit ") ---"]).
Proof.
  intros Hstarted.
  destruct (run_closed_form env) as (w & R & T & _ & L).
  exists w, (run_end env). split; [exact R|].
  rewrite T, launched_iff_process_start. intros E.
  destruct (L E) as (pre & Hl). exists pre.
  unfold upgrade_log in Hl. rewrite Hstarted in Hl. exact Hl.
Qed.

Lemma upgrade_output_logged_in_order_witness :
  wait_started present_env = true
  /\ (exists w e,
        run present_env = Some (w, e)
        /\ (existsb is_process_start (trace w) = true ->
            exists pre,
              log_view w
              = pre
                ++ [nl ++ lit "--- Starting update of all packages ---"]
                ++ map rstrip (proc_chunks present_env)
                ++ [if is_NormalExit (proc_exit_status present_env)
                       && (proc_exit_code present_env =? 0)
                    then nl ++ lit "--- Update completed without errors ---"
                    else nl ++ lit "--- Finished with error (code="
                         ++ str_of_int (proc_exit_code present_env) ++ lit ") ---"]))
  /\ exists w e,
       run present_env = Some (w, e)
       /\ existsb is_process_start (trace w) = true
       /\ log_view w
          = [lit "Checking for winget...";
             lit "winget already installed, proceeding to update.";
             nl ++ lit "--- Starting update of all packages ---";
             lit "Found 2 upgrades.";
             lit "Installer failed";
             nl ++ lit "--- Finished with error (code=1) ---"].
Proof.
  split; [reflexivity|].
  split; [exact (upgrade_output_logged_in_order present_env eq_refl)|].
  eval_run. split; reflexivity.
Defined.

(** X4.  A run starts at most one process for the upgrade, always
    [winget] with the fixed arguments, and waits for its start with the
    bound of 3000 ms right away; no other process start and no other wait
    happens in the run. *)
Theorem upgrade_started_at_most_once (env : Env) :
  exists w e,
    run env = Some (w, e)
    /\ filter is_upgrade_operation (trace w)
       = if existsb is_process_start (trace w)
         then [EvProcessStart (lit "winget") WINGET_UPDATE_ARGS; EvWaitForStarted 3000]
         else [].
Proof.
  destruct (run_closed_form env) as (w & R & T & _).
  exists w, (run_end env). split; [exact R|].
  rewrite T, launched_iff_process_start.
  assert (Hup : filter is_upgrade_operation (upgrade_events env)
                = [EvProcessStart (lit "winget") WINGET_UPDATE_ARGS; EvWaitForStarted 3000]).
  { unfold upgrade_events. destruct (wait_started env && negb (upgrade_ok env)); reflexivity. }
  unfold upgrade_launched, run_trace, platform_supported.
  destruct (pystr_eqb (platform_system env) (lit "Windows")); [|reflexivity].
  destruct (pystr_eqb (platform_release env) (lit "10")
            || pystr_eqb (platform_release env) (lit "11")); [|reflexivity].
  destruct (elevated env); [|reflexivity].
  cbn [andb negb]. destruct (winget_present env); cbn [orb filter is_upgrade_operation].
  - exact Hup.
  - unfold bootstrap_events. cbn [filter is_upgrade_operation].
    rewrite filter_app, (worker_events_filter _ _ _ worker_not_upgrade).
    destruct (bootstrap_ok env); cbn [app filter is_upgrade_operation];
      [exact Hup | reflexivity].
Qed.

(** X3.  The bootstrap runs in one order and at most once: the thread,
    then the download of the fixed URL to the file in the temporary
    directory, then - only if the download raised nothing - the installer,
    on that same file.  A failed download is never followed by an
    installation. *)
Theorem bootstrap_operations_in_order (env : Env) :
  exists w e,
    run env = Some (w, e)
    /\ (filter is_bootstrap_operation (trace w) = []
        \/ (download_error env <> None
            /\ filter is_bootstrap_operation (trace w)
               = [EvThreadStart; EvUrlretrieve WINGET_MSIX_URL (temp_path env)])
        \/ (download_error env = None
            /\ filter is_bootstrap_operation (trace w)
               = [EvThreadStart; EvUrlretrieve WINGET_MSIX_URL (temp_path env);
                  EvSubprocessRun (installer_args (temp_path env))])).
Proof.
  destruct (run_closed_form env) as (w & R & T & _).
  exists w, (run_end env). split; [exact R|]. rewrite T.
  unfold run_trace.
  destruct (pystr_eqb (platform_system env) (lit "Windows")); [|left; reflexivity].
  destruct (pystr_eqb (platform_release env) (lit "10")
            || pystr_eqb (platform_release env) (lit "11")); [|left; reflexivity].
  destruct (elevated env); [|left; reflexivity].
  cbn [negb]. unfold upgrade_events.
  destruct (winget_present env).
  - left. destruct (wait_started env && negb (upgrade_ok env)); reflexivity.
  - right. unfold bootstrap_events. cbn [filter is_bootstrap_operation].
    rewrite filter_app, worker_bootstrap_operations.
    assert (Htail : filter is_bootstrap_operation
                      (if bootstrap_ok env
                       then EvSingleShot 500 TC3D4e5
                            :: [EvProcessStart (lit "winget") WINGET_UPDATE_ARGS;
                                EvWaitForStarted 3000]
                               ++ (if wait_started env && negb (upgrade_ok env)
                                   then [EvWarning (lit "Winget Error")
                                           (warning_text (proc_exit_code env))]
                                   else [])
                       else fatal_events (lit "winget installation failed." ++ nl
                                          ++ snd (worker_verdict env (Some (temp_path env)))))
                    = []).
    { destruct (bootstrap_ok env); [|reflexivity].
      destruct (wait_started env && negb (upgrade_ok env)); reflexivity. }
    unfold upgrade_events. rewrite Htail, app_nil_r.
    destruct (download_error env) as [msg|].
    + left. split; [discriminate | reflexivity].
    + right. split; reflexivity.
Qed.

(** X13.  The application quits by itself exactly when it showed the
    critical box of a fatal error; a run that started the upgrade process
    never calls [quit()], whatever the outcome of the upgrade. *)
Theorem quits_exactly_on_fatal_error (env : Env) :
  exists w e,
    run env = Some (w, e)
    /\ existsb is_quit (trace w) = existsb is_critical (trace w)
    /\ (existsb is_process_start (trace w) = true -> existsb is_quit (trace w) = false).
Proof.
  destruct (run_closed_form env) as (w & R & T & _).
  exists w, (run_end env). split; [exact R|].
  rewrite T, launched_iff_process_start.
  unfold upgrade_launched, run_trace, platform_supported.
  destruct (pystr_eqb (platform_system env) (lit "Windows"));
    [|split; [reflexivity | discriminate]].
  destruct (pystr_eqb (platform_release env) (lit "10")
            || pystr_eqb (platform_release env) (lit "11"));
    [|split; [reflexivity | discriminate]].
  destruct (elevated env); [|split; [reflexivity | discriminate]].
  cbn [andb negb]. unfold upgrade_events.
  destruct (winget_present env); cbn [orb].
  - destruct (wait_started env && negb (upgrade_ok env)); split; reflexivity.
  - unfold bootstrap_events. cbn [existsb is_quit is_critical orb].
    rewrite !existsb_app.
    rewrite (worker_events_exclude _ _ _ worker_not_quit).
    rewrite (worker_events_exclude _ _ _ worker_not_critical).
    unfold upgrade_events.
    destruct (bootstrap_ok env);
      [destruct (wait_started env && negb (upgrade_ok env))|];
      split; (reflexivity || discriminate).
Qed.

(** X2.  Nothing that needs the elevated process - the probe, the thread,
    the download, the installer, the upgrade process - happens unless the
    platform is Windows 10 or 11 and the privilege query answered yes. *)
Theorem host_operations_need_elevation (env : Env) :
  exists w e,
    run env = Some (w, e)
    /\ (existsb is_gated_operation (trace w) = true ->
        platform_system env = lit "Windows"
        /\ (platform_release env = lit "10" \/ platform_release env = lit "11")
        /\ exists r, IsUserAnAdmin env = Some r /\ r <> 0).
Proof.
  destruct (run_closed_form env) as (w & R & T & _).
  exists w, (run_end env). split; [exact R|]. rewrite T.
  pose proof (platform_supported_iff env) as Hs.
  pose proof (elevated_iff env) as He.
  unfold run_trace, platform_supported in *.
  destruct (pystr_eqb (platform_system env) (lit "Windows")); [|discriminate].
  destruct (pystr_eqb (platform_release env) (lit "10")
            || pystr_eqb (platform_release env) (lit "11")); [|discriminate].
  destruct (elevated env); [|discriminate].
  intros _. destruct (proj1 Hs eq_refl) as [H1 H2].
  split; [exact H1|]. split; [exact H2|]. apply He. reflexivity.
Qed.

(** ** Every report is in the log *)

Section ReportFacts.

Variable env : Env.

Ltac pick_report Hin :=
  cbn [In] in Hin;
  repeat (destruct Hin as [Hin|Hin]; [try discriminate Hin|]);
  try contradiction.

(** What a slot adds to the effects and to the log: each critical box comes
    with its "Fatal error" line, each warning box with its "Finished with
    error" line. *)
Lemma dispatch_reports (t : Task) (w w' : WingetUpdater) (r : Res unit) :
  dispatch env t w = (w', r) ->
  exists evs s,
    trace w' = trace w ++ evs
    /\ log_view w' = log_view w ++ s
    /\ (forall title msg,
          In (EvCritical title msg) evs -> In (lit "<b>Fatal error:</b> " ++ msg) s)
    /\ (forall title text,
          In (EvWarning title text) evs ->
          exists code,
            text = warning_text code
            /\ In (nl ++ lit "--- Finished with error (code=" ++ str_of_int code
                   ++ lit ") ---") s).
Proof.
  intros Hd.
  destruct t as [| |[msg|p|[] m]|text|c s]; cbn [dispatch] in Hd.
  - (* q1R2s3 *)
    unfold q1R2s3 in Hd.
    destruct (pystr_eqb (platform_system env) (lit "Windows")); cbn [negb] in Hd.
    2: { injection Hd as <- _. eexists. eexists. window_fields.
         split; [rewrite <- app_assoc; reflexivity|]. split; [reflexivity|].
         split; intros a b Hin; pick_report Hin.
         injection Hin as _ <-. left. reflexivity. }
    destruct (pystr_eqb (platform_release env) (lit "10")
              || pystr_eqb (platform_release env) (lit "11")); cbn [negb] in Hd.
    2: { injection Hd as <- _. eexists. eexists. window_fields.
         split; [rewrite <- app_assoc; reflexivity|]. split; [reflexivity|].
         split; intros a b Hin; pick_report Hin.
         injection Hin as _ <-. left. reflexivity. }
    unfold bind at 1 in Hd. unfold a7B2cD3 in Hd.
    unfold bind at 1 in Hd. unfold effect at 1 in Hd. unfold modify at 1 in Hd.
    cbv beta iota in Hd. unfold ret at 1 in Hd. cbv beta iota in Hd.
    destruct (match IsUserAnAdmin env with
              | Some r => negb (r =? 0)
              | None => false
              end); cbn [negb] in Hd.
    2: { injection Hd as <- _. eexists. eexists. window_fields.
         split; [rewrite <- app_assoc; reflexivity|]. split; [reflexivity|].
         split; intros a b Hin; pick_report Hin. }
    unfold bind at 1 in Hd. unfold ret at 1 in Hd. cbv beta iota in Hd.
    unfold bind at 1 in Hd. unfold l2M3n4 at 1 in Hd. unfold modify at 1 in Hd.
    cbv beta iota in Hd.
    unfold bind at 1 in Hd. unfold i5J6kL7 in Hd.
    unfold bind at 1 in Hd. unfold effect at 1 in Hd. unfold modify at 1 in Hd.
    cbv beta iota in Hd. unfold ret at 1 in Hd. cbv beta iota in Hd.
    destruct (which_winget env) as [exe|].
    + injection Hd as <- _. eexists. eexists. window_fields.
      split; [rewrite <- !app_assoc; reflexivity|].
      split; [rewrite <- !app_assoc; reflexivity|].
      split; intros a b Hin; pick_report Hin.
    + unfold bind at 1 in Hd. unfold l2M3n4 at 1 in Hd. unfold modify at 1 in Hd.
      cbv beta iota in Hd. unfold t4U5v6, thread_start in Hd.
      repeat (unfold bind at 1 in Hd;
              first [unfold modify at 1 in Hd
                    | unfold effect at 1 in Hd; unfold modify at 1 in Hd];
              cbv beta iota in Hd).
      rewrite worker_run in Hd. cbn [fst msix_path perform set_msix_path record] in Hd.
      match type of Hd with
      | context [worker_events env ?f] => remember (worker_events env f) as we eqn:Ewe
      end.
      injection Hd as <- _. eexists. eexists. window_fields.
      split; [rewrite <- !app_assoc; reflexivity|].
      split; [rewrite <- !app_assoc; reflexivity|].
      split; intros a b Hin; cbn [app In] in Hin;
        repeat (destruct Hin as [Hin|Hin]; [discriminate Hin|]);
        subst we; apply worker_event_in in Hin; discriminate Hin.
  - (* c3D4e5 *)
    unfold c3D4e5, process_start, waitForStarted in Hd.
    destruct (wait_started env); injection Hd as <- _; eexists; eexists; window_fields;
      (split; [rewrite <- !app_assoc; reflexivity|]);
      (split; [rewrite <- ?app_assoc; reflexivity|]);
      split; intros a b Hin; pick_report Hin.
  - (* log *)
    injection Hd as <- _. exists [], [msg]. window_fields.
    split; [symmetry; apply app_nil_r|]. split; [reflexivity|].
    split; intros a b Hin; pick_report Hin.
  - (* progress *)
    unfold r8S9t0, bind, gets in Hd.
    destruct (negb (progress_visible w)); injection Hd as <- _; exists [], [];
      window_fields; rewrite !app_nil_r;
      (split; [reflexivity|]); (split; [reflexivity|]);
      split; intros a b Hin; pick_report Hin.
  - (* finished, success *)
    injection Hd as <- _. eexists. eexists. window_fields.
    split; [reflexivity|]. split; [reflexivity|].
    split; intros a b Hin; pick_report Hin.
  - (* finished, failure *)
    injection Hd as <- _. eexists. eexists. window_fields.
    split; [rewrite <- app_assoc; reflexivity|]. split; [reflexivity|].
    split; intros a b Hin; pick_report Hin.
    injection Hin as _ <-. left. reflexivity.
  - (* output *)
    injection Hd as <- _. exists [], [rstrip text]. window_fields.
    split; [symmetry; apply app_nil_r|]. split; [reflexivity|].
    split; intros a b Hin; pick_report Hin.
  - (* process end *)
    unfold i9J0k1 in Hd.
    destruct (is_NormalExit s && (c =? 0)); injection Hd as <- _.
    + exists [], [nl ++ lit "--- Update completed without errors ---"]. window_fields.
      split; [symmetry; apply app_nil_r|]. split; [reflexivity|].
      split; intros a b Hin; pick_report Hin.
    + eexists. eexists. window_fields.
      split; [reflexivity|]. split; [reflexivity|].
      split; intros a b Hin; pick_report Hin.
      injection Hin as _ <-. exists c. split; [reflexivity | left; reflexivity].
Qed.

End ReportFacts.

(** X12.  No failure is shown without being logged: at the end of every
    run, each critical box that was shown has its "Fatal error" line with
    the same message in the log, and each warning box about the upgrade has
    the "Finished with error" line with the same exit code. *)
Theorem every_report_is_logged (env : Env) :
  exists w e,
    run env = Some (w, e)
    /\ (forall title msg,
          In (EvCritical title msg) (trace w) ->
          In (lit "<b>Fatal error:</b> " ++ msg) (log_view w))
    /\ (forall title text,
          In (EvWarning title text) (trace w) ->
          exists code,
            text = lit "The update finished with an error (code=" ++ str_of_int code
                   ++ lit ")." ++ nl ++ lit "See the log above for details."
            /\ In (nl ++ lit "--- Finished with error (code=" ++ str_of_int code
                   ++ lit ") ---") (log_view w)).
Proof.
  destruct (run_closed_form env) as (w & R & _).
  exists w, (run_end env). split; [exact R|].
  set (I := fun x : WingetUpdater =>
              (forall title msg,
                  In (EvCritical title msg) (trace x) ->
                  In (lit "<b>Fatal error:</b> " ++ msg) (log_view x))
              /\ (forall title text,
                    In (EvWarning title text) (trace x) ->
                    exists code,
                      text = warning_text code
                      /\ In (nl ++ lit "--- Finished with error (code=" ++ str_of_int code
                             ++ lit ") ---") (log_view x))).
  assert (Hstep : forall w0 t q w1 x,
             I w0 -> dispatch env t (set_queue q w0) = (w1, x) -> I w1).
  { intros w0 t q w1 x [Hc Hw] Hd.
    destruct (dispatch_reports env t _ _ _ Hd) as (evs & s & Ht & Hl & Hc1 & Hw1).
    cbn [trace log_view set_queue] in Ht, Hl. unfold I. rewrite Ht, Hl. split.
    - intros title msg Hin. apply in_or_app. apply in_app_or in Hin as [Hin|Hin].
      + left. exact (Hc title msg Hin).
      + right. exact (Hc1 title msg Hin).
    - intros title text Hin. apply in_app_or in Hin as [Hin|Hin].
      + destruct (Hw title text Hin) as (code & Htext & Hlog).
        exists code. split; [exact Htext | apply in_or_app; left; exact Hlog].
      + destruct (Hw1 title text Hin) as (code & Htext & Hlog).
        exists code. split; [exact Htext | apply in_or_app; right; exact Hlog]. }
  apply (exec_loop_rule env I I) with (fuel := run_fuel env) (w := init_window)
                                      (e := run_end env).
  - intros w0 t q w1 HI _ _ Hd. exact (Hstep w0 t q w1 _ HI Hd).
  - intros w0 t q w1 x HI _ _ Hd. exact (Hstep w0 t q w1 _ HI Hd).
  - intros w0 rc HI _. exact HI.
  - intros w0 HI _ _. exact HI.
  - split; intros a b Hin; cbn [trace init_window In] in Hin;
      destruct Hin as [Hin|[]]; discriminate Hin.
  - exact R.
Qed.

(** ** What [strip] keeps *)








(** ** The outcome of a run, decided by the host *)

(** X15.  The outcome of every run is decided as follows.  On Windows 10
    or 11 without elevation the run reaches no terminal state (it leaves for
    the elevated process).  Otherwise it ends in the Succeeded state exactly
    when the upgrade was launched (supported platform, elevated, winget
    present or bootstrapped), the process started, and it ended normally
    with code 0; every other run ends in the Failed state. *)
Theorem run_outcome (env : Env) :
  exists w e,
    run env = Some (w, e)
    /\ terminal_state w
       = if platform_supported env && negb (elevated env)
         then None
         else if platform_supported env && elevated env
                 && (winget_present env || bootstrap_ok env)
                 && wait_started env && upgrade_ok env
         then Some Succeeded
         else Some Failed.
Proof.
  destruct (run_closed_form env) as (w & R & T & S & _).
  exists w, (run_end env). split; [exact R|].
  unfold terminal_state. rewrite T, S. unfold run_status.
  fold (upgrade_launched env).
  destruct (upgrade_launched env) eqn:E.
  - destruct (launched_trace env E) as (pre & Tp & Hpre & _).
    rewrite Tp, existsb_app, Hpre.
    unfold upgrade_launched in E.
    apply andb_true_iff in E as [E _]. apply andb_true_iff in E as [-> ->].
    cbn [andb negb orb]. unfold upgrade_events, upgrade_status.
    destruct (wait_started env); [|reflexivity].
    destruct (upgrade_ok env); reflexivity.
  - unfold upgrade_launched in E. unfold run_trace, platform_supported in *.
    destruct (pystr_eqb (platform_system env) (lit "Windows")); [|reflexivity].
    destruct (pystr_eqb (platform_release env) (lit "10")
              || pystr_eqb (platform_release env) (lit "11")); [|reflexivity].
    destruct (elevated env); [|reflexivity].
    cbn [andb negb orb] in *.
    destruct (winget_present env); [discriminate E|]. cbn [orb] in E.
    unfold bootstrap_events. rewrite E.
    cbn [existsb is_failure_report orb]. rewrite existsb_app.
    rewrite (worker_events_exclude _ _ _ worker_not_report). reflexivity.
Qed.
